(** * TemperatureFader: a shallow embedding of
      src/modules/tools/temperaturefader/TemperatureFader.{h,cpp}

    The module modulates a PWM output from the highest temperature of a
    group of temperature controllers.  The embedding keeps the C++ data as
    it is declared: [float] fields are IEEE-754 binary32 values (the
    Standard Library's [spec_float] at precision 24, exponent bound 128),
    [uint8_t], [uint16_t] and [int16_t] fields are [Z] with the narrowing
    conversions written out, and the calls on the firmware's [PublicData]
    bus and on the console stream are recorded in a trace of events. *)

From Stdlib Require Import ZArith List String Ascii Bool Lia.
From Stdlib Require Import Floats.SpecFloat.
Import ListNotations.
Local Open Scope string_scope.
Local Open Scope list_scope.
Local Open Scope Z_scope.

(** ** binary32 arithmetic *)

Module Float32.

Definition prec : Z := 24.
Definition emax : Z := 128.

Definition float : Type := spec_float.

(** An [int] (or [uint8_t], [uint16_t]) converted to [float]. *)
Definition of_Z (n : Z) : float := binary_normalize prec emax n 0 false.

(** The literal [0.0]. *)
Definition zero : float := S754_zero false.

Definition sub : float -> float -> float := SFsub prec emax.
Definition mul : float -> float -> float := SFmul prec emax.
Definition div : float -> float -> float := SFdiv prec emax.

(** The C++ comparison operators on [float]; each one is false as soon
    as an operand is a NaN, except [!=], which is the negation of [==]. *)
Definition ltb (a b : float) : bool :=
  match SFcompare a b with Some Lt => true | _ => false end.
Definition leb (a b : float) : bool :=
  match SFcompare a b with Some (Lt | Eq) => true | _ => false end.
Definition gtb (a b : float) : bool :=
  match SFcompare a b with Some Gt => true | _ => false end.
Definition geb (a b : float) : bool :=
  match SFcompare a b with Some (Gt | Eq) => true | _ => false end.
Definition eqb (a b : float) : bool :=
  match SFcompare a b with Some Eq => true | _ => false end.
Definition neb (a b : float) : bool := negb (eqb a b).

Definition is_nan (a : float) : bool :=
  match a with S754_nan => true | _ => false end.

(** The integer part of a finite value, rounding toward zero: the
    mantissa is shifted by the exponent ([Z.shiftl] by a negative amount
    shifts right) and the sign is applied afterwards.  C++ leaves the
    conversion of an infinity or a NaN undefined; the model gives 0. *)
Definition trunc (a : float) : Z :=
  match a with
  | S754_finite s m e => cond_Zopp s (Z.shiftl (Zpos m) e)
  | _ => 0
  end.

End Float32.

Abbreviation float := Float32.float.

(** ** Fixed-width integers *)

Definition to_uint8 (z : Z) : Z := z mod 256.
Definition to_uint16 (z : Z) : Z := z mod 65536.
Definition to_int16 (z : Z) : Z := (z + 32768) mod 65536 - 32768.

Definition is_uint8 (z : Z) : bool := (0 <=? z) && (z <=? 255).
Definition is_uint16 (z : Z) : bool := (0 <=? z) && (z <=? 65535).
Definition is_int16 (z : Z) : bool := (-32768 <=? z) && (z <=? 32767).

(** [int(x)] for a [float] x: the integer part.  C++ leaves the conversion
    undefined when the integer part does not fit an [int]; the model keeps
    the integer. *)
Definition float_to_int (x : float) : Z := Float32.trunc x.

(** The implicit conversion of a [float] to an unsigned field.  Out of the
    field's range C++ leaves the result undefined; the model reduces the
    integer part to the field's width, so that a field always holds a value
    of its type. *)
Definition float_to_uint8 (x : float) : Z := to_uint8 (Float32.trunc x).
Definition float_to_uint16 (x : float) : Z := to_uint16 (Float32.trunc x).

(** ** Data model *)

(** The private fields of [class TemperatureFader], in declaration order. *)
Record TemperatureFader : Type := mkTemperatureFader {
  temp_controllers : list Z;                    (* vector<uint16_t> *)
  temperaturefader_min_fade_temp : float;
  temperaturefader_max_fade_temp : float;
  temperaturefader_min_fade_pwm : Z;            (* uint8_t *)
  temperaturefader_max_fade_pwm : Z;            (* uint8_t *)
  temperaturefader_switch_cs : Z;               (* uint16_t *)
  temperaturefader_heatup_poll : Z;             (* uint16_t *)
  temperaturefader_cooldown_poll : Z;           (* uint16_t *)
  temperaturefader_fading_poll : Z;             (* uint16_t *)
  countdown_timer : Z;                          (* int16_t *)
  temperaturefader_pwm_value : float;
  temperaturefader_state : bool
}.

Definition set_temp_controllers (l : list Z) (t : TemperatureFader) :=
  mkTemperatureFader l
    (temperaturefader_min_fade_temp t) (temperaturefader_max_fade_temp t)
    (temperaturefader_min_fade_pwm t) (temperaturefader_max_fade_pwm t)
    (temperaturefader_switch_cs t) (temperaturefader_heatup_poll t)
    (temperaturefader_cooldown_poll t) (temperaturefader_fading_poll t)
    (countdown_timer t) (temperaturefader_pwm_value t)
    (temperaturefader_state t).

Definition set_min_fade_temp (x : float) (t : TemperatureFader) :=
  mkTemperatureFader (temp_controllers t)
    x (temperaturefader_max_fade_temp t)
    (temperaturefader_min_fade_pwm t) (temperaturefader_max_fade_pwm t)
    (temperaturefader_switch_cs t) (temperaturefader_heatup_poll t)
    (temperaturefader_cooldown_poll t) (temperaturefader_fading_poll t)
    (countdown_timer t) (temperaturefader_pwm_value t)
    (temperaturefader_state t).

Definition set_max_fade_temp (x : float) (t : TemperatureFader) :=
  mkTemperatureFader (temp_controllers t)
    (temperaturefader_min_fade_temp t) x
    (temperaturefader_min_fade_pwm t) (temperaturefader_max_fade_pwm t)
    (temperaturefader_switch_cs t) (temperaturefader_heatup_poll t)
    (temperaturefader_cooldown_poll t) (temperaturefader_fading_poll t)
    (countdown_timer t) (temperaturefader_pwm_value t)
    (temperaturefader_state t).

Definition set_min_fade_pwm (x : Z) (t : TemperatureFader) :=
  mkTemperatureFader (temp_controllers t)
    (temperaturefader_min_fade_temp t) (temperaturefader_max_fade_temp t)
    x (temperaturefader_max_fade_pwm t)
    (temperaturefader_switch_cs t) (temperaturefader_heatup_poll t)
    (temperaturefader_cooldown_poll t) (temperaturefader_fading_poll t)
    (countdown_timer t) (temperaturefader_pwm_value t)
    (temperaturefader_state t).

Definition set_max_fade_pwm (x : Z) (t : TemperatureFader) :=
  mkTemperatureFader (temp_controllers t)
    (temperaturefader_min_fade_temp t) (temperaturefader_max_fade_temp t)
    (temperaturefader_min_fade_pwm t) x
    (temperaturefader_switch_cs t) (temperaturefader_heatup_poll t)
    (temperaturefader_cooldown_poll t) (temperaturefader_fading_poll t)
    (countdown_timer t) (temperaturefader_pwm_value t)
    (temperaturefader_state t).

Definition set_switch_cs (x : Z) (t : TemperatureFader) :=
  mkTemperatureFader (temp_controllers t)
    (temperaturefader_min_fade_temp t) (temperaturefader_max_fade_temp t)
    (temperaturefader_min_fade_pwm t) (temperaturefader_max_fade_pwm t)
    x (temperaturefader_heatup_poll t)
    (temperaturefader_cooldown_poll t) (temperaturefader_fading_poll t)
    (countdown_timer t) (temperaturefader_pwm_value t)
    (temperaturefader_state t).

Definition set_heatup_poll (x : Z) (t : TemperatureFader) :=
  mkTemperatureFader (temp_controllers t)
    (temperaturefader_min_fade_temp t) (temperaturefader_max_fade_temp t)
    (temperaturefader_min_fade_pwm t) (temperaturefader_max_fade_pwm t)
    (temperaturefader_switch_cs t) x
    (temperaturefader_cooldown_poll t) (temperaturefader_fading_poll t)
    (countdown_timer t) (temperaturefader_pwm_value t)
    (temperaturefader_state t).

Definition set_cooldown_poll (x : Z) (t : TemperatureFader) :=
  mkTemperatureFader (temp_controllers t)
    (temperaturefader_min_fade_temp t) (temperaturefader_max_fade_temp t)
    (temperaturefader_min_fade_pwm t) (temperaturefader_max_fade_pwm t)
    (temperaturefader_switch_cs t) (temperaturefader_heatup_poll t)
    x (temperaturefader_fading_poll t)
    (countdown_timer t) (temperaturefader_pwm_value t)
    (temperaturefader_state t).

Definition set_countdown_timer (x : Z) (t : TemperatureFader) :=
  mkTemperatureFader (temp_controllers t)
    (temperaturefader_min_fade_temp t) (temperaturefader_max_fade_temp t)
    (temperaturefader_min_fade_pwm t) (temperaturefader_max_fade_pwm t)
    (temperaturefader_switch_cs t) (temperaturefader_heatup_poll t)
    (temperaturefader_cooldown_poll t) (temperaturefader_fading_poll t)
    x (temperaturefader_pwm_value t)
    (temperaturefader_state t).

Definition set_pwm_value (x : float) (t : TemperatureFader) :=
  mkTemperatureFader (temp_controllers t)
    (temperaturefader_min_fade_temp t) (temperaturefader_max_fade_temp t)
    (temperaturefader_min_fade_pwm t) (temperaturefader_max_fade_pwm t)
    (temperaturefader_switch_cs t) (temperaturefader_heatup_poll t)
    (temperaturefader_cooldown_poll t) (temperaturefader_fading_poll t)
    (countdown_timer t) x
    (temperaturefader_state t).

Definition set_state (x : bool) (t : TemperatureFader) :=
  mkTemperatureFader (temp_controllers t)
    (temperaturefader_min_fade_temp t) (temperaturefader_max_fade_temp t)
    (temperaturefader_min_fade_pwm t) (temperaturefader_max_fade_pwm t)
    (temperaturefader_switch_cs t) (temperaturefader_heatup_poll t)
    (temperaturefader_cooldown_poll t) (temperaturefader_fading_poll t)
    (countdown_timer t) (temperaturefader_pwm_value t)
    x.

(** The [#define default_...] constants. *)
Definition default_heatup_poll : Z := 15.
Definition default_cooldown_poll : Z := 60.
Definition default_fading_poll : Z := 1.
Definition default_min_fade_temp : float := Float32.of_Z 50.
Definition default_max_fade_temp : float := Float32.of_Z 150.
Definition default_min_fade_pwm : Z := 0.
Definition default_max_fade_pwm : Z := 255.

(** [TemperatureFader::TemperatureFader()]: the member initialiser list. *)
Definition new_TemperatureFader : TemperatureFader :=
  {| temp_controllers := [];
     temperaturefader_min_fade_temp := default_min_fade_temp;
     temperaturefader_max_fade_temp := default_max_fade_temp;
     temperaturefader_min_fade_pwm := default_min_fade_pwm;
     temperaturefader_max_fade_pwm := default_max_fade_pwm;
     temperaturefader_switch_cs := 0;
     temperaturefader_heatup_poll := default_heatup_poll;
     temperaturefader_cooldown_poll := default_cooldown_poll;
     temperaturefader_fading_poll := default_fading_poll;
     countdown_timer := 0;
     temperaturefader_pwm_value := Float32.of_Z 0;
     temperaturefader_state := false |}.

(** ** The firmware around the module *)

(** Modelled from the spec: [struct pad_temperature] is declared in
    TemperatureControlPublicAccess.h, which is not among the sources.  A
    temperature source reports its current temperature and its designator
    tag (spec, section 6); only these two members are read here. *)
Record pad_temperature : Type := {
  current_temperature : float;
  designator : string
}.

(** A write on the switch's public data: [state_checksum] carries the
    [bool] on/off state, [value_checksum] the [float] duty value. *)
Inductive switch_request : Type :=
| state_request (switch_cs : Z) (state : bool)
| value_request (switch_cs : Z) (value : float).

(** What a method does to the outside, in the order it does it. *)
Inductive event : Type :=
| get_temperature (controller : Z)    (* PublicData::get_value(temperature_control_checksum, ...) *)
| set_switch (r : switch_request)     (* PublicData::set_value(switch_checksum, ...) *)
| printf (msg : string).              (* THEKERNEL->streams->printf *)

Definition CRLF : string := String (ascii_of_nat 13) (String (ascii_of_nat 10) EmptyString).

Definition is_state_write (e : event) : bool :=
  match e with set_switch (state_request _ _) => true | _ => false end.
Definition is_value_write (e : event) : bool :=
  match e with set_switch (value_request _ _) => true | _ => false end.
Definition is_write (e : event) : bool :=
  match e with set_switch _ => true | _ => false end.

(** ** Methods: state passing over the object, with a trace *)

Definition Method (A : Type) : Type :=
  TemperatureFader -> A * TemperatureFader * list event.

Definition ret {A} (a : A) : Method A := fun this => (a, this, []).

Definition bind {A B} (m : Method A) (k : A -> Method B) : Method B :=
  fun this =>
    let '(a, this1, t1) := m this in
    let '(b, this2, t2) := k a this1 in
    (b, this2, t1 ++ t2).

Definition read {A} (field : TemperatureFader -> A) : Method A :=
  fun this => (field this, this, []).

Definition assign (update : TemperatureFader -> TemperatureFader) : Method unit :=
  fun this => (tt, update this, []).

Definition emit (e : event) : Method unit := fun this => (tt, this, [e]).

Definition when (b : bool) (m : Method unit) : Method unit :=
  if b then m else ret tt.

Declare Scope method_scope.
Delimit Scope method_scope with method.
Notation "x <- m ;; k" := (bind m (fun x => k))
  (at level 61, m at next level, right associativity) : method_scope.
Notation "m ;; k" := (bind m (fun _ => k))
  (at level 61, right associativity) : method_scope.
Local Open Scope method_scope.

(** The object and the trace a method leaves. *)
Definition object_after {A} (m : Method A) (this : TemperatureFader) : TemperatureFader :=
  snd (fst (m this)).
Definition trace_of {A} (m : Method A) (this : TemperatureFader) : list event :=
  snd (m this).
Definition result_of {A} (m : Method A) (this : TemperatureFader) : A :=
  fst (fst (m this)).

Section Controller.

(** [PublicData::get_value(temperature_control_checksum, controller,
    current_temperature_checksum, &returned_temp)]: the reading of a
    controller, or [None] when the call returns false. *)
Variable get_value : Z -> option pad_temperature.

(** [PublicData::set_value(switch_checksum, cs, ..., &field)]: whether
    the switch took the write. *)
Variable set_value : switch_request -> bool.

Definition PublicData_get_value (controller : Z) : Method (option pad_temperature) :=
  emit (get_temperature controller) ;; ret (get_value controller).

Definition PublicData_set_value (r : switch_request) : Method bool :=
  emit (set_switch r) ;; ret (set_value r).

(** [TemperatureFader::get_highest_temperature]: the body of the
    range-for, with [high_temp] as the accumulator. *)
Fixpoint highest_loop (controllers : list Z) (high_temp : float) : Method float :=
  match controllers with
  | [] => ret high_temp
  | controller :: rest =>
      temp_ok <- PublicData_get_value controller ;;
      match temp_ok with
      | Some temp =>
          if Float32.gtb (current_temperature temp) high_temp
          then highest_loop rest (current_temperature temp)
          else highest_loop rest high_temp
      | None => highest_loop rest high_temp
      end
  end.

Definition get_highest_temperature : Method float :=
  controllers <- read temp_controllers ;;
  highest_loop controllers Float32.zero.

(** [TemperatureFader::set_pwm].  The [uint8_t] bound is converted to
    [float] for the comparison; both [set_value] calls pass the address
    of the field, so they send what the field holds at that moment. *)
Definition set_pwm (value : float) : Method unit :=
  pwm_value <- read temperaturefader_pwm_value ;;
  when (Float32.neb pwm_value value) (
    min_fade_pwm <- read temperaturefader_min_fade_pwm ;;
    state <- read temperaturefader_state ;;
    let on := Float32.gtb value (Float32.of_Z min_fade_pwm) in
    when (negb (Bool.eqb on state)) (
      assign (set_state on) ;;
      cs <- read temperaturefader_switch_cs ;;
      state' <- read temperaturefader_state ;;
      ok <- PublicData_set_value (state_request cs state') ;;
      when (negb ok)
        (emit (printf ("Failed updating TemperatureFader state." ++ CRLF)%string))) ;;
    assign (set_pwm_value value) ;;
    cs <- read temperaturefader_switch_cs ;;
    pwm_value' <- read temperaturefader_pwm_value ;;
    ok <- PublicData_set_value (value_request cs pwm_value') ;;
    when (negb ok)
      (emit (printf ("Failed updating TemperatureFader pwm value." ++ CRLF)%string))).

(** The value of the fading branch:
    [min_fade_pwm + int(frac * (max_fade_pwm - min_fade_pwm))], stored in
    a [float].  The two [uint8_t] operands are promoted to [int], so the
    difference lies in [-255, 255] and is converted to [float] exactly. *)
Definition fading_value (this : TemperatureFader) (current_temp : float) : float :=
  let frac :=
    Float32.div
      (Float32.sub current_temp (temperaturefader_min_fade_temp this))
      (Float32.sub (temperaturefader_max_fade_temp this)
                   (temperaturefader_min_fade_temp this)) in
  Float32.of_Z
    (temperaturefader_min_fade_pwm this
     + float_to_int
         (Float32.mul frac
            (Float32.of_Z (temperaturefader_max_fade_pwm this
                           - temperaturefader_min_fade_pwm this)))).

(** [TemperatureFader::on_second_tick].  The polls are [uint16_t] and the
    timer is [int16_t]: the assignments narrow. *)
Definition on_second_tick : Method unit :=
  timer <- read countdown_timer ;;
  if timer <=? 1 then
    current_temp <- get_highest_temperature ;;
    min_fade_temp <- read temperaturefader_min_fade_temp ;;
    max_fade_temp <- read temperaturefader_max_fade_temp ;;
    if Float32.leb current_temp min_fade_temp then
      min_fade_pwm <- read temperaturefader_min_fade_pwm ;;
      set_pwm (Float32.of_Z min_fade_pwm) ;;
      heatup_poll <- read temperaturefader_heatup_poll ;;
      assign (set_countdown_timer (to_int16 heatup_poll))
    else if Float32.geb current_temp max_fade_temp then
      max_fade_pwm <- read temperaturefader_max_fade_pwm ;;
      set_pwm (Float32.of_Z max_fade_pwm) ;;
      cooldown_poll <- read temperaturefader_cooldown_poll ;;
      assign (set_countdown_timer (to_int16 cooldown_poll))
    else
      value <- read (fun this => fading_value this current_temp) ;;
      set_pwm value ;;
      fading_poll <- read temperaturefader_fading_poll ;;
      assign (set_countdown_timer (to_int16 fading_poll))
  else
    assign (set_countdown_timer (to_int16 (timer - 1))).

(** The scheduler's ON_SECOND_TICK, [n] seconds in a row. *)
Fixpoint seconds (n : nat) : Method unit :=
  match n with
  | O => ret tt
  | S k => on_second_tick ;; seconds k
  end.

End Controller.

(** ** The loader *)

(** Modelled from the spec: the configuration source ([Config],
    [ConfigValue]) is not among the sources.  For one module of the
    [temperaturefader] group, an entry gives what the configuration holds
    under each key that [load_config] asks for, already read as the type
    the [as_bool], [as_string] or [as_number] call returns; [None] stands
    for a key that is not set. *)
Record ConfigEntry : Type := {
  cfg_enable : option bool;
  cfg_designator : option string;
  cfg_switch : option string;
  cfg_type : option string;
  cfg_min_fade_temp : option float;
  cfg_max_fade_temp : option float;
  cfg_min_fade_pwm : option float;
  cfg_max_fade_pwm : option float;
  cfg_heatup_poll : option float;
  cfg_cooldown_poll : option float;
  cfg_fading_poll : option float
}.

(** [value(...)->by_default(d)->as_...()] *)
Definition by_default {A} (d : A) (found : option A) : A :=
  match found with Some v => v | None => d end.

(** [s[0]] of a [std::string]: the terminator when [s] is empty. *)
Definition first_char (s : string) : ascii :=
  match s with String c _ => c | EmptyString => Ascii.zero end.

Definition empty (s : string) : bool :=
  match s with EmptyString => true | String _ _ => false end.

(** How a call of [load_config] ends. *)
Inductive load_result : Type :=
| not_loaded (this : TemperatureFader)
    (* return false; the new instance, if any, is deleted *)
| not_loaded_this_deleted (ts : TemperatureFader)
    (* no switch: [delete this; return false;], [ts] stays allocated *)
| loaded (this ts : TemperatureFader).
    (* [ts] is registered for ON_SECOND_TICK; return true *)

Section Loader.

(** [get_checksum] and the [CHECKSUM] macro come from checksumm.h. *)
Variable get_checksum : string -> Z.

(** The [temperaturefader] entries of the configuration, by module
    checksum. *)
Variable config : Z -> ConfigEntry.

(** [THEKERNEL->temperature_control_pool->get_controllers()] *)
Variable tempcontrollers : list Z.

Variable get_value : Z -> option pad_temperature.

Definition temperaturefader_hotend_checksum : Z := get_checksum "hotend".

(** The loop over [tempcontrollers]: the controllers that answer and
    whose designator starts with the one asked for, in pool order. *)
Definition matching_controllers (designator' : ascii) : list Z :=
  filter
    (fun controller =>
       match get_value controller with
       | Some temp => Ascii.eqb (first_char (designator temp)) designator'
       | None => false
       end)
    tempcontrollers.

(** [TemperatureFader::load_config], run by the loading instance [this].
    The settings are stored through [ts]; the two comparisons after them
    are written without [ts->], so they read and write the fields of
    [this]. *)
Definition load_config (this : TemperatureFader) (modcs : Z) : load_result :=
  let entry := config modcs in
  if negb (by_default false (cfg_enable entry)) then not_loaded this else
  let s := by_default EmptyString (cfg_designator entry) in
  let designator' :=
    if empty s
    then if modcs =? temperaturefader_hotend_checksum then "T"%char else Ascii.zero
    else first_char s in
  if Ascii.eqb designator' Ascii.zero then not_loaded this else
  let ts := new_TemperatureFader in
  let ts := set_temp_controllers (matching_controllers designator') ts in
  match temp_controllers ts with
  | [] => not_loaded this
  | _ :: _ =>
    let s := by_default EmptyString (cfg_switch entry) in
    let s := if empty s then by_default EmptyString (cfg_type entry) else s in
    if empty s then not_loaded_this_deleted ts else
    let ts := set_switch_cs (get_checksum s) ts in
    let ts := set_min_fade_temp
                (by_default default_min_fade_temp (cfg_min_fade_temp entry)) ts in
    let ts := set_max_fade_temp
                (by_default default_max_fade_temp (cfg_max_fade_temp entry)) ts in
    let ts := set_min_fade_pwm
                (float_to_uint8
                   (by_default (Float32.of_Z default_min_fade_pwm)
                      (cfg_min_fade_pwm entry))) ts in
    let ts := set_max_fade_pwm
                (float_to_uint8
                   (by_default (Float32.of_Z default_max_fade_pwm)
                      (cfg_max_fade_pwm entry))) ts in
    let this :=
      if Float32.ltb (temperaturefader_max_fade_temp this)
                     (temperaturefader_min_fade_temp this)
      then set_max_fade_temp (temperaturefader_min_fade_temp this) this
      else this in
    let this :=
      if temperaturefader_max_fade_pwm this <? temperaturefader_min_fade_pwm this
      then set_max_fade_pwm (temperaturefader_min_fade_pwm this) this
      else this in
    let ts := set_heatup_poll
                (float_to_uint16
                   (by_default (Float32.of_Z default_heatup_poll)
                      (cfg_heatup_poll entry))) ts in
    let ts := set_cooldown_poll
                (float_to_uint16
                   (by_default (Float32.of_Z default_cooldown_poll)
                      (cfg_cooldown_poll entry))) ts in
    let ts := set_countdown_timer (to_int16 (temperaturefader_heatup_poll ts)) ts in
    loaded this ts
  end.

(** The controller that a call of [load_config] creates and registers. *)
Definition created (r : load_result) : option TemperatureFader :=
  match r with loaded _ ts => Some ts | _ => None end.

End Loader.

(** ** What the spec says the sampling computes *)

(** The readings of the controllers that answer, in list order. *)
Definition readable_temperatures
    (get_value : Z -> option pad_temperature) (controllers : list Z) : list float :=
  flat_map
    (fun controller =>
       match get_value controller with
       | Some temp => [current_temperature temp]
       | None => []
       end)
    controllers.

(** The larger of two readings, keeping the first unless the second is
    greater. *)
Definition float_max (a b : float) : float :=
  if Float32.gtb b a then b else a.

(** Spec, section 4.2: "temp = max(current_temperature(s) for s in
    sources), treating an unreadable source as absent; if no source is
    readable, temp = 0.0". *)
Definition spec_highest_temperature
    (get_value : Z -> option pad_temperature) (controllers : list Z) : float :=
  match readable_temperatures get_value controllers with
  | [] => Float32.zero
  | r :: rs => fold_left float_max rs r
  end.

(** ** The decision of an acting tick *)

Inductive branch : Type := Idle | Full | Fading.

(** The if / else if / else of [on_second_tick], by its outcome. *)
Definition branch_of (this : TemperatureFader) (current_temp : float) : branch :=
  if Float32.leb current_temp (temperaturefader_min_fade_temp this) then Idle
  else if Float32.geb current_temp (temperaturefader_max_fade_temp this) then Full
  else Fading.

(** The value handed to [set_pwm] and the poll that reloads the timer. *)
Definition dispatch_value (this : TemperatureFader) (current_temp : float) : float :=
  match branch_of this current_temp with
  | Idle => Float32.of_Z (temperaturefader_min_fade_pwm this)
  | Full => Float32.of_Z (temperaturefader_max_fade_pwm this)
  | Fading => fading_value this current_temp
  end.

Definition next_poll (this : TemperatureFader) (current_temp : float) : Z :=
  match branch_of this current_temp with
  | Idle => temperaturefader_heatup_poll this
  | Full => temperaturefader_cooldown_poll this
  | Fading => temperaturefader_fading_poll this
  end.

(** ** Well-typed objects *)

(** The integer fields hold values of their C++ types. *)
Definition well_typed (this : TemperatureFader) : bool :=
  is_uint8 (temperaturefader_min_fade_pwm this)
  && is_uint8 (temperaturefader_max_fade_pwm this)
  && is_uint16 (temperaturefader_heatup_poll this)
  && is_uint16 (temperaturefader_cooldown_poll this)
  && is_uint16 (temperaturefader_fading_poll this)
  && is_int16 (countdown_timer this).

(** The relation between the two fields that [set_pwm] keeps in step. *)
Definition state_matches_value (this : TemperatureFader) : Prop :=
  temperaturefader_state this
  = Float32.gtb (temperaturefader_pwm_value this)
                (Float32.of_Z (temperaturefader_min_fade_pwm this)).

(** ** What a dispatch does *)

Definition state_failure : string :=
  ("Failed updating TemperatureFader state." ++ CRLF)%string.
Definition value_failure : string :=
  ("Failed updating TemperatureFader pwm value." ++ CRLF)%string.

(** One write on the switch, and the message when the switch refuses. *)
Definition write_once (set_value : switch_request -> bool)
    (r : switch_request) (failure : string) : list event :=
  set_switch r :: (if set_value r then [] else [printf failure]).

(** The on/off state that goes with a duty value. *)
Definition on_for (this : TemperatureFader) (value : float) : bool :=
  Float32.gtb value (Float32.of_Z (temperaturefader_min_fade_pwm this)).

(** The object and the trace of a dispatch that is not suppressed. *)
Definition dispatched (value : float) (this : TemperatureFader) : TemperatureFader :=
  set_pwm_value value (set_state (on_for this value) this).

Definition dispatch_trace (set_value : switch_request -> bool)
    (value : float) (this : TemperatureFader) : list event :=
  (if Bool.eqb (on_for this value) (temperaturefader_state this) then []
   else write_once set_value
          (state_request (temperaturefader_switch_cs this) (on_for this value))
          state_failure)
  ++ write_once set_value
       (value_request (temperaturefader_switch_cs this) value) value_failure.

(** A dispatch touches [temperaturefader_state] and
    [temperaturefader_pwm_value] only. *)
Definition same_settings (a b : TemperatureFader) : Prop :=
  temp_controllers a = temp_controllers b
  /\ temperaturefader_min_fade_temp a = temperaturefader_min_fade_temp b
  /\ temperaturefader_max_fade_temp a = temperaturefader_max_fade_temp b
  /\ temperaturefader_min_fade_pwm a = temperaturefader_min_fade_pwm b
  /\ temperaturefader_max_fade_pwm a = temperaturefader_max_fade_pwm b
  /\ temperaturefader_switch_cs a = temperaturefader_switch_cs b
  /\ temperaturefader_heatup_poll a = temperaturefader_heatup_poll b
  /\ temperaturefader_cooldown_poll a = temperaturefader_cooldown_poll b
  /\ temperaturefader_fading_poll a = temperaturefader_fading_poll b.

(** ** A small firmware for the examples *)

Module Example.

(** A stand-in for [get_checksum]: any function to [uint16_t] will do. *)
Definition checksum (s : string) : Z := to_uint16 (Z.of_nat (String.length s)).

(** One hotend, controller 7, designator "T". *)
Definition pool : list Z := [7].

Definition hotend_at (t : float) (controller : Z) : option pad_temperature :=
  if controller =? 7
  then Some {| current_temperature := t; designator := "T" |}
  else None.

Definition accepting : switch_request -> bool := fun _ => true.
Definition rejecting : switch_request -> bool := fun _ => false.

(** [temperaturefader.hotend.enable true], [.switch fan], and nothing
    else. *)
Definition minimal : ConfigEntry :=
  {| cfg_enable := Some true; cfg_designator := None;
     cfg_switch := Some "fan"; cfg_type := None;
     cfg_min_fade_temp := None; cfg_max_fade_temp := None;
     cfg_min_fade_pwm := None; cfg_max_fade_pwm := None;
     cfg_heatup_poll := None; cfg_cooldown_poll := None;
     cfg_fading_poll := None |}.

Definition with_temps (lo hi : Z) (e : ConfigEntry) : ConfigEntry :=
  {| cfg_enable := cfg_enable e; cfg_designator := cfg_designator e;
     cfg_switch := cfg_switch e; cfg_type := cfg_type e;
     cfg_min_fade_temp := Some (Float32.of_Z lo);
     cfg_max_fade_temp := Some (Float32.of_Z hi);
     cfg_min_fade_pwm := cfg_min_fade_pwm e;
     cfg_max_fade_pwm := cfg_max_fade_pwm e;
     cfg_heatup_poll := cfg_heatup_poll e;
     cfg_cooldown_poll := cfg_cooldown_poll e;
     cfg_fading_poll := cfg_fading_poll e |}.

Definition with_pwms (lo hi : Z) (e : ConfigEntry) : ConfigEntry :=
  {| cfg_enable := cfg_enable e; cfg_designator := cfg_designator e;
     cfg_switch := cfg_switch e; cfg_type := cfg_type e;
     cfg_min_fade_temp := cfg_min_fade_temp e;
     cfg_max_fade_temp := cfg_max_fade_temp e;
     cfg_min_fade_pwm := Some (Float32.of_Z lo);
     cfg_max_fade_pwm := Some (Float32.of_Z hi);
     cfg_heatup_poll := cfg_heatup_poll e;
     cfg_cooldown_poll := cfg_cooldown_poll e;
     cfg_fading_poll := cfg_fading_poll e |}.

Definition with_polls (heatup cooldown fading : Z) (e : ConfigEntry) : ConfigEntry :=
  {| cfg_enable := cfg_enable e; cfg_designator := cfg_designator e;
     cfg_switch := cfg_switch e; cfg_type := cfg_type e;
     cfg_min_fade_temp := cfg_min_fade_temp e;
     cfg_max_fade_temp := cfg_max_fade_temp e;
     cfg_min_fade_pwm := cfg_min_fade_pwm e;
     cfg_max_fade_pwm := cfg_max_fade_pwm e;
     cfg_heatup_poll := Some (Float32.of_Z heatup);
     cfg_cooldown_poll := Some (Float32.of_Z cooldown);
     cfg_fading_poll := Some (Float32.of_Z fading) |}.

(** The loader, freshly constructed, run on an entry for the module
    "hotend", with the hotend at 20 degrees while loading. *)
Definition load_hotend (e : ConfigEntry) : load_result :=
  load_config checksum (fun _ => e) pool (hotend_at (Float32.of_Z 20))
    new_TemperatureFader (checksum "hotend").

(** The controller it creates; the freshly constructed instance when the
    entry is refused. *)
Definition load (e : ConfigEntry) : TemperatureFader :=
  match created (load_hotend e) with
  | Some ts => ts
  | None => new_TemperatureFader
  end.

End Example.

(** ** The loading instance at start-up *)

(** How [on_module_loaded] ends.  The method always ends in
    [delete this]; when a call of [load_config] has deleted [this] before,
    the rest of the loop and the final [delete this] work on an object that
    is gone, and C++ leaves what happens then undefined. *)
Inductive module_loaded_result : Type :=
| loader_deleted (registered : list TemperatureFader)
| loader_used_after_delete (registered : list TemperatureFader) (modcs : Z).

Section ModuleLoader.

Variable get_checksum : string -> Z.
Variable config : Z -> ConfigEntry.
Variable tempcontrollers : list Z.
Variable get_value : Z -> option pad_temperature.

(** [THEKERNEL->config->get_module_list(&modulist,
    temperaturefader_checksum)] *)
Variable modulist : list Z.

(** The range-for of [on_module_loaded], with the controllers in the order
    they are registered. *)
Fixpoint load_modules (this : TemperatureFader) (modules : list Z)
    : module_loaded_result :=
  match modules with
  | [] => loader_deleted []
  | m :: rest =>
      match load_config get_checksum config tempcontrollers get_value this m with
      | not_loaded this' => load_modules this' rest
      | not_loaded_this_deleted _ => loader_used_after_delete [] m
      | loaded this' ts =>
          match load_modules this' rest with
          | loader_deleted l => loader_deleted (ts :: l)
          | loader_used_after_delete l m' => loader_used_after_delete (ts :: l) m'
          end
      end
  end.

(** [TemperatureFader::on_module_loaded] *)
Definition on_module_loaded (this : TemperatureFader) : module_loaded_result :=
  load_modules this modulist.

(** The designator that [load_config] settles on (lines 100 to 108): the
    first character of the configured one, else 'T' for the module
    "hotend", else NUL. *)
Definition resolved_designator (modcs : Z) : ascii :=
  let s := by_default EmptyString (cfg_designator (config modcs)) in
  if empty s
  then if modcs =? temperaturefader_hotend_checksum get_checksum
       then "T"%char else Ascii.zero
  else first_char s.

(** The name of the switch (lines 137 to 146): the [switch] setting, else
    the [type] setting, else empty. *)
Definition switch_name (modcs : Z) : string :=
  let s := by_default EmptyString (cfg_switch (config modcs)) in
  if empty s then by_default EmptyString (cfg_type (config modcs)) else s.

(** The conditions that [load_config] checks before it registers. *)
Definition enabled (modcs : Z) : bool :=
  by_default false (cfg_enable (config modcs)).

Definition has_controllers (modcs : Z) : bool :=
  match matching_controllers tempcontrollers get_value (resolved_designator modcs) with
  | [] => false
  | _ :: _ => true
  end.

Definition accepted (modcs : Z) : bool :=
  enabled modcs
  && negb (Ascii.eqb (resolved_designator modcs) Ascii.zero)
  && has_controllers modcs
  && negb (empty (switch_name modcs)).

Definition deletes_loader (modcs : Z) : bool :=
  enabled modcs
  && negb (Ascii.eqb (resolved_designator modcs) Ascii.zero)
  && has_controllers modcs
  && empty (switch_name modcs).

End ModuleLoader.

(** The controllers that [on_module_loaded] has registered, in order. *)
Definition registered (r : module_loaded_result) : list TemperatureFader :=
  match r with
  | loader_deleted l => l
  | loader_used_after_delete l _ => l
  end.

(** The controller that an entry gives when it is loaded by a freshly
    constructed instance, as a list of at most one. *)
Definition loaded_alone (get_checksum : string -> Z) (config : Z -> ConfigEntry)
    (tempcontrollers : list Z) (get_value : Z -> option pad_temperature)
    (modcs : Z) : list TemperatureFader :=
  match
    created (load_config get_checksum config tempcontrollers get_value
               new_TemperatureFader modcs)
  with
  | Some ts => [ts]
  | None => []
  end.

(** A loading instance whose own bounds are in order, as the constructor
    leaves them: the two comparisons of [load_config] find nothing to do. *)
Definition ordered_bounds (this : TemperatureFader) : bool :=
  negb (Float32.ltb (temperaturefader_max_fade_temp this)
                    (temperaturefader_min_fade_temp this))
  && negb (temperaturefader_max_fade_pwm this <? temperaturefader_min_fade_pwm this).

(** ** Reading a trace *)

(** The duty values written to the switch, in order. *)
Fixpoint written_values (trace : list event) : list float :=
  match trace with
  | [] => []
  | set_switch (value_request _ v) :: rest => v :: written_values rest
  | _ :: rest => written_values rest
  end.



(** ** Checking a range of integers by evaluation *)

(** [f] holds on the [n] integers from [z] on. *)
Fixpoint all_from (f : Z -> bool) (n : nat) (z : Z) : bool :=
  match n with
  | O => true
  | S k => f z && all_from f k (z + 1)
  end.

(** ** More firmware for the examples *)

Module Example2.

(** Three controllers: two hotends (designator "T") and a bed ("B");
    controller 9 does not answer. *)
Definition pool : list Z := [7; 8; 9; 11].

Definition sensors (controller : Z) : option pad_temperature :=
  if controller =? 7 then
    Some {| current_temperature := Float32.of_Z 210; designator := "T" |}
  else if controller =? 8 then
    Some {| current_temperature := Float32.of_Z 60; designator := "B" |}
  else if controller =? 11 then
    Some {| current_temperature := Float32.of_Z 190; designator := "T1" |}
  else None.

Definition no_entry : ConfigEntry :=
  {| cfg_enable := None; cfg_designator := None;
     cfg_switch := None; cfg_type := None;
     cfg_min_fade_temp := None; cfg_max_fade_temp := None;
     cfg_min_fade_pwm := None; cfg_max_fade_pwm := None;
     cfg_heatup_poll := None; cfg_cooldown_poll := None;
     cfg_fading_poll := None |}.

Definition entry (designator' switch type : option string) : ConfigEntry :=
  {| cfg_enable := Some true; cfg_designator := designator';
     cfg_switch := switch; cfg_type := type;
     cfg_min_fade_temp := None; cfg_max_fade_temp := None;
     cfg_min_fade_pwm := None; cfg_max_fade_pwm := None;
     cfg_heatup_poll := None; cfg_cooldown_poll := None;
     cfg_fading_poll := None |}.

(** Module 1 follows the bed and drives "light"; module 2 follows the
    hotends and names its switch the old way; module 3 has no switch;
    module 4 is not enabled. *)
Definition config (modcs : Z) : ConfigEntry :=
  if modcs =? 1 then entry (Some "B") (Some "light") None
  else if modcs =? 2 then entry (Some "T") None (Some "fan")
  else if modcs =? 3 then entry (Some "T") None None
  else no_entry.

Definition load (modcs : Z) : load_result :=
  load_config Example.checksum config pool sensors new_TemperatureFader modcs.

End Example2.

(** * Facts *)

(** ** The order of binary32 values *)

Module Float32Facts.
Import Float32.

Ltac compare_specs :=
  repeat match goal with
  | H : context [ Z.compare ?a ?b ] |- _ => destruct (Z.compare_spec a b)
  | |- context [ Z.compare ?a ?b ] => destruct (Z.compare_spec a b)
  | H : context [ Pos.compare_cont Eq ?a ?b ] |- _ =>
      change (Pos.compare_cont Eq a b) with (Pos.compare a b) in *;
      destruct (Pos.compare_spec a b)
  | |- context [ Pos.compare_cont Eq ?a ?b ] =>
      change (Pos.compare_cont Eq a b) with (Pos.compare a b) in *;
      destruct (Pos.compare_spec a b)
  end.

Ltac order :=
  unfold ltb, leb, gtb, geb, eqb, neb, is_nan, zero in *; simpl in *;
  repeat match goal with s : bool |- _ => destruct s end;
  simpl in *; try congruence; try reflexivity;
  compare_specs; simpl in *; try congruence; try reflexivity; try lia.

Ltac by_cases3 a b c :=
  destruct a as [? | ? | | ? ? ?], b as [? | ? | | ? ? ?], c as [? | ? | | ? ? ?];
  intros; order.

Ltac by_cases2 a b :=
  destruct a as [? | ? | | ? ? ?], b as [? | ? | | ? ? ?]; intros; order.

Lemma leb_trans a b c : leb a b = true -> leb b c = true -> leb a c = true.
Proof. by_cases3 a b c. Qed.

Lemma leb_refl a : is_nan a = false -> leb a a = true.
Proof. destruct a; intros; order. Qed.

Lemma gtb_not_nan a b : gtb a b = true -> is_nan a = false /\ is_nan b = false.
Proof. by_cases2 a b; split; congruence. Qed.

Lemma gtb_leb a b : gtb a b = true -> leb b a = true.
Proof. by_cases2 a b. Qed.

Lemma gtb_leb_false a b : gtb a b = true -> leb a b = false.
Proof. by_cases2 a b. Qed.

Lemma not_gtb_leb a b :
  is_nan a = false -> is_nan b = false -> gtb a b = false -> leb a b = true.
Proof. by_cases2 a b. Qed.

(** Two values that compare equal compare alike with any third one. *)
Lemma eqb_compare a b c : eqb a b = true -> SFcompare c a = SFcompare c b.
Proof.
  destruct a as [? | ? | | ? ? ?], b as [? | ? | | ? ? ?], c as [? | ? | | ? ? ?];
    intros; order; subst; try reflexivity;
    try (rewrite Z.compare_refl; reflexivity);
    try (rewrite ?Z.compare_refl, ?Pos.compare_cont_refl; reflexivity).
Qed.

(** A value that is neither below-or-equal one bound nor above-or-equal
    another lies strictly between them. *)
Lemma between_strict t lo hi :
  is_nan t = false -> is_nan lo = false -> is_nan hi = false ->
  leb t lo = false -> geb t hi = false -> ltb lo hi = true.
Proof. by_cases3 t lo hi. Qed.

Lemma eqb_not_nan a b : eqb a b = true -> is_nan a = false /\ is_nan b = false.
Proof. by_cases2 a b; split; congruence. Qed.

(** ... and then the upper bound is not below-or-equal the lower one,
    whether the bounds are numbers or not. *)
Lemma between_not_leb t lo hi :
  is_nan t = false ->
  leb t lo = false -> geb t hi = false -> leb hi lo = false.
Proof. by_cases3 t lo hi. Qed.

(** With equal bounds, a value is on one side or the other. *)
Lemma equal_bounds_split t lo hi :
  is_nan t = false -> eqb hi lo = true ->
  leb t lo = true \/ geb t hi = true.
Proof.
  intros Ht Heq. destruct (eqb_not_nan _ _ Heq) as [_ Hlo].
  unfold leb, geb. rewrite (eqb_compare _ _ t Heq).
  destruct (SFcompare t lo) as [[ | | ] | ] eqn:E; auto.
  destruct t, lo; simpl in *; discriminate.
Qed.

Lemma eqb_refl a : is_nan a = false -> eqb a a = true.
Proof. destruct a; intros; order. Qed.

(** A non-negative integer converts to a value that is not below zero:
    rounding keeps the sign. *)
Lemma of_Z_nonneg n : 0 <= n -> gtb (of_Z 0) (of_Z n) = false.
Proof.
  intros Hn. destruct n as [ | p | p ]; [reflexivity | | lia].
  unfold of_Z, binary_normalize, binary_round, binary_round_aux.
  destruct (shl_align _ _ _) as [mz ez].
  destruct (shr_fexp _ _ _ _ _) as [mrs' e'].
  destruct (shr_fexp _ _ _ _ _) as [mrs'' e''].
  destruct (shr_m mrs''); [reflexivity | | reflexivity].
  destruct (e'' <=? _); reflexivity.
Qed.

End Float32Facts.

(** ** Sampling *)

Section SamplingFacts.

Variable get_value : Z -> option pad_temperature.

Lemma highest_loop_run controllers high_temp this :
  highest_loop get_value controllers high_temp this
  = (fold_left float_max (readable_temperatures get_value controllers) high_temp,
     this,
     map get_temperature controllers).
Proof.
  revert high_temp.
  induction controllers as [ | controller rest IH]; intros high_temp.
  - reflexivity.
  - cbn [highest_loop readable_temperatures flat_map map].
    unfold bind, PublicData_get_value, emit, ret. cbn.
    destruct (get_value controller) as [temp | ]; cbn.
    + unfold float_max at 2.
      destruct (Float32.gtb (current_temperature temp) high_temp);
        rewrite IH; reflexivity.
    + rewrite IH. reflexivity.
Qed.

Lemma get_highest_temperature_run this :
  get_highest_temperature get_value this
  = (fold_left float_max
       (readable_temperatures get_value (temp_controllers this)) Float32.zero,
     this,
     map get_temperature (temp_controllers this)).
Proof.
  unfold get_highest_temperature, bind, read.
  rewrite highest_loop_run. reflexivity.
Qed.

End SamplingFacts.

Lemma float_max_not_nan h r :
  Float32.is_nan h = false -> Float32.is_nan (float_max h r) = false.
Proof.
  intros Hh. unfold float_max.
  destruct (Float32.gtb r h) eqn:E; [ | exact Hh].
  apply (Float32Facts.gtb_not_nan _ _ E).
Qed.

Lemma float_max_ge_l h r :
  Float32.is_nan h = false -> Float32.leb h (float_max h r) = true.
Proof.
  intros Hh. unfold float_max.
  destruct (Float32.gtb r h) eqn:E.
  - apply Float32Facts.gtb_leb, E.
  - apply Float32Facts.leb_refl, Hh.
Qed.

Lemma float_max_ge_r h r :
  Float32.is_nan h = false -> Float32.is_nan r = false ->
  Float32.leb r (float_max h r) = true.
Proof.
  intros Hh Hr. unfold float_max.
  destruct (Float32.gtb r h) eqn:E.
  - apply Float32Facts.leb_refl, Hr.
  - apply Float32Facts.not_gtb_leb; assumption.
Qed.

Lemma fold_max_not_nan rs : forall h,
  Float32.is_nan h = false -> Float32.is_nan (fold_left float_max rs h) = false.
Proof.
  induction rs as [ | r rs IH]; intros h Hh; cbn; [exact Hh | ].
  apply IH, float_max_not_nan, Hh.
Qed.

Lemma fold_max_ge_init rs : forall h,
  Float32.is_nan h = false -> Float32.leb h (fold_left float_max rs h) = true.
Proof.
  induction rs as [ | r rs IH]; intros h Hh; cbn.
  - apply Float32Facts.leb_refl, Hh.
  - apply Float32Facts.leb_trans with (b := float_max h r).
    + apply float_max_ge_l, Hh.
    + apply IH, float_max_not_nan, Hh.
Qed.

Lemma fold_max_upper rs : forall h r,
  Float32.is_nan h = false -> In r rs -> Float32.is_nan r = false ->
  Float32.leb r (fold_left float_max rs h) = true.
Proof.
  induction rs as [ | a rs IH]; intros h r Hh Hin Hr; cbn; [destruct Hin | ].
  destruct Hin as [-> | Hin].
  - apply Float32Facts.leb_trans with (b := float_max h r).
    + apply float_max_ge_r; assumption.
    + apply fold_max_ge_init, float_max_not_nan, Hh.
  - apply IH; [apply float_max_not_nan, Hh | exact Hin | exact Hr].
Qed.

Lemma fold_max_mem rs : forall h,
  fold_left float_max rs h = h \/ In (fold_left float_max rs h) rs.
Proof.
  induction rs as [ | a rs IH]; intros h; cbn; [left; reflexivity | ].
  destruct (IH (float_max h a)) as [E | Hin]; [ | right; right; exact Hin].
  rewrite E. unfold float_max. destruct (Float32.gtb a h); auto.
Qed.

(** What one tick samples is never a NaN. *)
Lemma sampled_not_nan get_value this :
  Float32.is_nan (result_of (get_highest_temperature get_value) this) = false.
Proof.
  unfold result_of. rewrite get_highest_temperature_run. cbn [fst].
  apply fold_max_not_nan. reflexivity.
Qed.

(** C4, as amended.  The sampled temperature is the maximum of 0.0 and the
    readings of the controllers that answer: it is the loop's fold from
    0.0, it is at least 0.0 and at least every reading that is a number,
    and it is 0.0 itself or one of the readings.  It is 0.0 when no
    controller answers, and it is one of the readings as soon as one of
    them is above 0.0.  The sampling reads each bound controller once and
    leaves the object alone. *)
Theorem sampled_temperature_is_max_with_zero :
  forall (get_value : Z -> option pad_temperature) (this : TemperatureFader),
    let readings := readable_temperatures get_value (temp_controllers this) in
    let temp := result_of (get_highest_temperature get_value) this in
    temp = fold_left float_max readings Float32.zero
    /\ Float32.leb Float32.zero temp = true
    /\ (forall r, In r readings -> Float32.is_nan r = false ->
                  Float32.leb r temp = true)
    /\ (temp = Float32.zero \/ In temp readings)
    /\ (readings = [] -> temp = Float32.zero)
    /\ ((exists r, In r readings /\ Float32.gtb r Float32.zero = true) ->
        In temp readings)
    /\ object_after (get_highest_temperature get_value) this = this
    /\ trace_of (get_highest_temperature get_value) this
       = map get_temperature (temp_controllers this).
Proof.
  intros get_value this readings temp.
  assert (E : temp = fold_left float_max readings Float32.zero).
  { unfold temp, result_of. rewrite get_highest_temperature_run. reflexivity. }
  assert (U : forall r, In r readings -> Float32.is_nan r = false ->
                        Float32.leb r temp = true).
  { intros r Hin Hr. rewrite E. apply fold_max_upper; auto. }
  assert (M : temp = Float32.zero \/ In temp readings).
  { rewrite E. apply fold_max_mem. }
  repeat split.
  - exact E.
  - rewrite E. apply fold_max_ge_init. reflexivity.
  - exact U.
  - exact M.
  - intros Hnil. rewrite E, Hnil. reflexivity.
  - intros [r [Hin Hgt]]. destruct M as [Hz | Hin']; [ | exact Hin'].
    destruct (Float32Facts.gtb_not_nan _ _ Hgt) as [Hr _].
    specialize (U r Hin Hr). rewrite Hz in U.
    rewrite (Float32Facts.gtb_leb_false _ _ Hgt) in U. discriminate.
  - unfold object_after. rewrite get_highest_temperature_run. reflexivity.
  - unfold trace_of. rewrite get_highest_temperature_run. reflexivity.
Qed.

Lemma sampled_temperature_is_max_with_zero_witness :
  let get_value := Example.hotend_at (Float32.of_Z 100) in
  let this := Example.load Example.minimal in
  (exists r, In r (readable_temperatures get_value (temp_controllers this))
             /\ Float32.gtb r Float32.zero = true)
  /\ In (result_of (get_highest_temperature get_value) this)
        (readable_temperatures get_value (temp_controllers this)).
Proof.
  cbv zeta.
  assert (H : exists r,
             In r (readable_temperatures (Example.hotend_at (Float32.of_Z 100))
                     (temp_controllers (Example.load Example.minimal)))
             /\ Float32.gtb r Float32.zero = true).
  { exists (Float32.of_Z 100). split; [left | ]; vm_compute; reflexivity. }
  split; [exact H | ].
  destruct (sampled_temperature_is_max_with_zero
              (Example.hotend_at (Float32.of_Z 100)) (Example.load Example.minimal))
    as (_ & _ & _ & _ & _ & Hin & _).
  exact (Hin H).
Defined.

(** C4 as the spec words it fails on a controller whose only source reads
    five degrees below zero: the source is readable, the maximum of the
    readings is -5, and the code samples 0.0. *)
Lemma sampled_temperature_below_zero :
  let get_value := Example.hotend_at (Float32.of_Z (-5)) in
  let this := Example.load Example.minimal in
  readable_temperatures get_value (temp_controllers this) = [Float32.of_Z (-5)]
  /\ spec_highest_temperature get_value (temp_controllers this) = Float32.of_Z (-5)
  /\ result_of (get_highest_temperature get_value) this = Float32.zero
  /\ result_of (get_highest_temperature get_value) this
     <> spec_highest_temperature get_value (temp_controllers this).
Proof.
  cbv zeta. repeat split; try (vm_compute; reflexivity).
  vm_compute. discriminate.
Qed.

(** ** Dispatch *)

Lemma set_pwm_suppressed set_value value this :
  Float32.eqb (temperaturefader_pwm_value this) value = true ->
  set_pwm set_value value this = (tt, this, []).
Proof.
  intros E. unfold set_pwm, bind, read, when, Float32.neb. cbn.
  rewrite E. reflexivity.
Qed.

Lemma set_pwm_dispatched set_value value this :
  Float32.eqb (temperaturefader_pwm_value this) value = false ->
  set_pwm set_value value this
  = (tt, dispatched value this, dispatch_trace set_value value this).
Proof.
  intros E. unfold set_pwm, dispatched, dispatch_trace, write_once, on_for.
  unfold bind, read, when, assign, emit, ret, PublicData_set_value, Float32.neb.
  cbn. rewrite E. cbn.
  destruct this as [tc lo hi plo phi cs hp cp fp timer last st]; cbn.
  destruct (Float32.gtb value (Float32.of_Z plo)), st; cbn;
    repeat match goal with
           | |- context [ set_value ?r ] => destruct (set_value r); cbn
           end;
    reflexivity.
Qed.

Lemma set_pwm_cases set_value value this :
  set_pwm set_value value this = (tt, this, [])
  \/ set_pwm set_value value this
     = (tt, dispatched value this, dispatch_trace set_value value this).
Proof.
  destruct (Float32.eqb (temperaturefader_pwm_value this) value) eqn:E.
  - left. apply set_pwm_suppressed, E.
  - right. apply set_pwm_dispatched, E.
Qed.

Lemma set_pwm_same_settings set_value value this :
  same_settings (object_after (set_pwm set_value value) this) this
  /\ countdown_timer (object_after (set_pwm set_value value) this)
     = countdown_timer this.
Proof.
  unfold object_after.
  destruct (set_pwm_cases set_value value this) as [E | E]; rewrite E; cbn;
    unfold same_settings; repeat split; reflexivity.
Qed.

Lemma set_pwm_keeps_state_matches_value set_value value this :
  state_matches_value this ->
  state_matches_value (object_after (set_pwm set_value value) this).
Proof.
  intros Hinv. unfold object_after.
  destruct (set_pwm_cases set_value value this) as [E | E]; rewrite E; cbn.
  - exact Hinv.
  - reflexivity.
Qed.

(** C7.  A dispatch of a value that differs from the last one computes
    [on = value > min_fade_pwm]; the state is written exactly when [on]
    differs from the stored state, and what is written is the field after
    its update; then the value is stored and written.  Both fields are
    updated whatever the switch answers; a refused write is followed by its
    message and by no second attempt: the trace holds at most one state
    write, then exactly one value write. *)
Theorem set_pwm_writes :
  forall (set_value : switch_request -> bool) (value : float)
         (this : TemperatureFader),
    Float32.neb (temperaturefader_pwm_value this) value = true ->
    let on := Float32.gtb value (Float32.of_Z (temperaturefader_min_fade_pwm this)) in
    let cs := temperaturefader_switch_cs this in
    let this' := object_after (set_pwm set_value value) this in
    let trace := trace_of (set_pwm set_value value) this in
    temperaturefader_state this' = on
    /\ temperaturefader_pwm_value this' = value
    /\ same_settings this' this
    /\ countdown_timer this' = countdown_timer this
    /\ trace
       = (if Bool.eqb on (temperaturefader_state this) then []
          else set_switch (state_request cs (temperaturefader_state this'))
               :: (if set_value (state_request cs on) then []
                   else [printf state_failure]))
         ++ set_switch (value_request cs (temperaturefader_pwm_value this'))
            :: (if set_value (value_request cs value) then []
                else [printf value_failure])
    /\ existsb is_state_write trace = negb (Bool.eqb on (temperaturefader_state this))
    /\ List.length (filter is_value_write trace) = 1%nat.
Proof.
  intros set_value value this Hne on cs this' trace.
  assert (E : Float32.eqb (temperaturefader_pwm_value this) value = false).
  { unfold Float32.neb in Hne. destruct (Float32.eqb _ _); [discriminate | reflexivity]. }
  pose proof (set_pwm_dispatched set_value value this E) as Hrun.
  assert (Hobj : this' = dispatched value this).
  { unfold this', object_after. rewrite Hrun. reflexivity. }
  assert (Htr : trace = dispatch_trace set_value value this).
  { unfold trace, trace_of. rewrite Hrun. reflexivity. }
  rewrite Hobj, Htr.
  unfold dispatched, dispatch_trace, write_once, on_for. fold on. fold cs.
  repeat split.
  destruct (Bool.eqb on (temperaturefader_state this)); cbn;
    repeat match goal with
           | |- context [ set_value ?r ] => destruct (set_value r); cbn
           end; reflexivity.
  destruct (Bool.eqb on (temperaturefader_state this)); cbn;
    repeat match goal with
           | |- context [ set_value ?r ] => destruct (set_value r); cbn
           end; reflexivity.
Qed.

Lemma set_pwm_writes_witness :
  let this := Example.load Example.minimal in
  let this' := object_after (set_pwm Example.rejecting (Float32.of_Z 127)) this in
  Float32.neb (temperaturefader_pwm_value this) (Float32.of_Z 127) = true
  /\ temperaturefader_state this' = true
  /\ temperaturefader_pwm_value this' = Float32.of_Z 127.
Proof.
  cbv zeta.
  assert (H : Float32.neb
                (temperaturefader_pwm_value (Example.load Example.minimal))
                (Float32.of_Z 127) = true) by (vm_compute; reflexivity).
  split; [exact H | ].
  destruct (set_pwm_writes Example.rejecting (Float32.of_Z 127)
              (Example.load Example.minimal) H) as (Hs & Hv & _).
  split; [rewrite Hs; vm_compute; reflexivity | exact Hv].
Defined.

Lemma set_pwm_then_equal set_value value this :
  Float32.is_nan value = false ->
  Float32.eqb
    (temperaturefader_pwm_value (object_after (set_pwm set_value value) this))
    value = true.
Proof.
  intros Hv. unfold object_after.
  destruct (Float32.eqb (temperaturefader_pwm_value this) value) eqn:E.
  - rewrite (set_pwm_suppressed _ _ _ E). exact E.
  - rewrite (set_pwm_dispatched _ _ _ E). cbn.
    apply Float32Facts.eqb_refl, Hv.
Qed.

Lemma dispatch_trace_writes set_value value this :
  (List.length (filter is_state_write (dispatch_trace set_value value this)) <= 1)%nat
  /\ List.length (filter is_value_write (dispatch_trace set_value value this)) = 1%nat.
Proof.
  unfold dispatch_trace, write_once.
  destruct (Bool.eqb _ _); cbn;
    repeat match goal with
           | |- context [ set_value ?r ] => destruct (set_value r); cbn
           end; split; auto.
Qed.

(** C8.  A dispatch of the value that was dispatched last does nothing: no
    event, no change of the object.  Hence of two dispatches of the same
    value in a row the second one is silent, whatever the first one did and
    whatever the switch answered: together they leave the trace and the
    object of the first alone, with at most one state write and at most one
    value write, and exactly one value write when the first dispatch
    changed the value. *)
Theorem set_pwm_idempotent :
  forall (set_value set_value' : switch_request -> bool) (value : float)
         (this : TemperatureFader),
    (Float32.eqb (temperaturefader_pwm_value this) value = true ->
     set_pwm set_value value this = (tt, this, []))
    /\ (Float32.is_nan value = false ->
        let once := set_pwm set_value value in
        let twice := (set_pwm set_value value ;; set_pwm set_value' value) in
        set_pwm set_value' value (object_after once this)
        = (tt, object_after once this, [])
        /\ trace_of twice this = trace_of once this
        /\ object_after twice this = object_after once this
        /\ (List.length (filter is_state_write (trace_of twice this)) <= 1)%nat
        /\ (List.length (filter is_value_write (trace_of twice this)) <= 1)%nat
        /\ (Float32.neb (temperaturefader_pwm_value this) value = true ->
            List.length (filter is_value_write (trace_of twice this)) = 1%nat)).
Proof.
  intros set_value set_value' value this. split.
  - apply set_pwm_suppressed.
  - intros Hv once twice.
    pose proof (set_pwm_then_equal set_value value this Hv) as Heq.
    pose proof (set_pwm_suppressed set_value' value _ Heq) as Hsecond.
    fold once in Hsecond.
    assert (Htwice : twice this
                     = (tt, object_after once this, trace_of once this)).
    { unfold twice, bind. unfold object_after, trace_of, once in *.
      destruct (set_pwm set_value value this) as [[u this1] t1] eqn:E1.
      cbn [fst snd] in *.
      rewrite Hsecond. destruct u. rewrite app_nil_r. reflexivity. }
    assert (Htrace : trace_of twice this = trace_of once this).
    { unfold trace_of at 1. rewrite Htwice. reflexivity. }
    repeat split.
    + exact Hsecond.
    + exact Htrace.
    + unfold object_after at 1. rewrite Htwice. reflexivity.
    + rewrite Htrace. unfold trace_of, once.
      destruct (set_pwm_cases set_value value this) as [E | E]; rewrite E; cbn.
      * auto.
      * apply dispatch_trace_writes.
    + rewrite Htrace. unfold trace_of, once.
      destruct (set_pwm_cases set_value value this) as [E | E]; rewrite E; cbn.
      * auto.
      * destruct (dispatch_trace_writes set_value value this) as [_ H].
        rewrite H. auto.
    + intros Hne. rewrite Htrace. unfold trace_of, once.
      rewrite set_pwm_dispatched.
      * apply dispatch_trace_writes.
      * unfold Float32.neb in Hne. apply negb_true_iff in Hne. exact Hne.
Qed.

Lemma set_pwm_idempotent_witness :
  let this := Example.load Example.minimal in
  let once := set_pwm Example.accepting (Float32.of_Z 255) in
  Float32.eqb (temperaturefader_pwm_value this) (Float32.of_Z 0) = true
  /\ set_pwm Example.accepting (Float32.of_Z 0) this = (tt, this, [])
  /\ Float32.is_nan (Float32.of_Z 255) = false
  /\ set_pwm Example.rejecting (Float32.of_Z 255) (object_after once this)
     = (tt, object_after once this, []).
Proof.
  cbv zeta.
  assert (H0 : Float32.eqb
                 (temperaturefader_pwm_value (Example.load Example.minimal))
                 (Float32.of_Z 0) = true) by (vm_compute; reflexivity).
  assert (H1 : Float32.is_nan (Float32.of_Z 255) = false) by (vm_compute; reflexivity).
  split; [exact H0 | ].
  split.
  - exact (proj1 (set_pwm_idempotent Example.accepting Example.accepting
                    (Float32.of_Z 0) (Example.load Example.minimal)) H0).
  - split; [exact H1 | ].
    exact (proj1 (proj2 (set_pwm_idempotent Example.accepting Example.rejecting
                           (Float32.of_Z 255) (Example.load Example.minimal)) H1)).
Defined.

(** ** Ticks *)

Lemma to_int16_small z : -32768 <= z <= 32767 -> to_int16 z = z.
Proof.
  intros H. unfold to_int16. rewrite Z.mod_small; lia.
Qed.

Lemma to_int16_range z : is_int16 (to_int16 z) = true.
Proof.
  unfold is_int16, to_int16.
  pose proof (Z.mod_pos_bound (z + 32768) 65536).
  apply andb_true_intro. split; apply Z.leb_le; lia.
Qed.

Lemma to_uint16_range z : is_uint16 (to_uint16 z) = true.
Proof.
  unfold is_uint16, to_uint16.
  pose proof (Z.mod_pos_bound z 65536).
  apply andb_true_intro. split; apply Z.leb_le; lia.
Qed.

Lemma to_uint8_range z : is_uint8 (to_uint8 z) = true.
Proof.
  unfold is_uint8, to_uint8.
  pose proof (Z.mod_pos_bound z 256).
  apply andb_true_intro. split; apply Z.leb_le; lia.
Qed.

(** An acting tick: sample, dispatch the value of the branch, reload the
    timer from the poll of the branch. *)
Lemma on_second_tick_acting get_value set_value this :
  countdown_timer this <= 1 ->
  let temp := result_of (get_highest_temperature get_value) this in
  on_second_tick get_value set_value this
  = (tt,
     set_countdown_timer (to_int16 (next_poll this temp))
       (object_after (set_pwm set_value (dispatch_value this temp)) this),
     map get_temperature (temp_controllers this)
     ++ trace_of (set_pwm set_value (dispatch_value this temp)) this).
Proof.
  intros Ht temp.
  assert (Etemp : temp = fold_left float_max
                           (readable_temperatures get_value (temp_controllers this))
                           Float32.zero).
  { unfold temp, result_of. rewrite get_highest_temperature_run. reflexivity. }
  unfold on_second_tick.
  unfold bind at 1. unfold read at 1.
  apply Z.leb_le in Ht. rewrite Ht.
  unfold bind at 1. rewrite get_highest_temperature_run. rewrite <- Etemp.
  unfold dispatch_value, next_poll, branch_of.
  unfold bind at 1. unfold read at 1.
  unfold bind at 1. unfold read at 1.
  destruct (Float32.leb temp (temperaturefader_min_fade_temp this));
    [ | destruct (Float32.geb temp (temperaturefader_max_fade_temp this)) ];
    unfold bind, read, assign, object_after, trace_of;
    match goal with
    | |- context [ set_pwm set_value ?v this ] =>
        destruct (set_pwm_same_settings set_value v this) as [Hs _];
        unfold object_after, same_settings in Hs;
        destruct (set_pwm set_value v this) as [[u this1] t1]
    end;
    cbn [fst snd] in Hs;
    destruct Hs as (_ & _ & _ & _ & _ & _ & Hh & Hc & Hf);
    cbn; rewrite ?Hh, ?Hc, ?Hf, ?app_nil_r; destruct u; reflexivity.
Qed.

(** A waiting tick. *)
Lemma on_second_tick_waiting get_value set_value this :
  1 < countdown_timer this ->
  on_second_tick get_value set_value this
  = (tt, set_countdown_timer (to_int16 (countdown_timer this - 1)) this, []).
Proof.
  intros Ht. unfold on_second_tick, bind, read, assign.
  apply Z.leb_gt in Ht. rewrite Ht. reflexivity.
Qed.

(** C9.  On a tick with the timer above 1 nothing happens but the
    decrement: the timer goes down by one, the trace is empty (no
    controller is read, no switch is written, nothing is printed), and no
    other field of the object changes. *)
Theorem on_second_tick_waits :
  forall (get_value : Z -> option pad_temperature)
         (set_value : switch_request -> bool) (this : TemperatureFader),
    is_int16 (countdown_timer this) = true ->
    1 < countdown_timer this ->
    let this' := object_after (on_second_tick get_value set_value) this in
    countdown_timer this' = countdown_timer this - 1
    /\ trace_of (on_second_tick get_value set_value) this = []
    /\ same_settings this' this
    /\ temperaturefader_pwm_value this' = temperaturefader_pwm_value this
    /\ temperaturefader_state this' = temperaturefader_state this
    /\ this' = set_countdown_timer (countdown_timer this - 1) this.
Proof.
  intros get_value set_value this Hty Ht this'.
  assert (E : this' = set_countdown_timer (countdown_timer this - 1) this).
  { unfold this', object_after. rewrite on_second_tick_waiting by exact Ht.
    cbn [fst snd]. rewrite to_int16_small; [reflexivity | ].
    unfold is_int16 in Hty. apply andb_prop in Hty. lia. }
  rewrite E. unfold trace_of. rewrite on_second_tick_waiting by exact Ht.
  unfold same_settings. cbn. repeat split.
Qed.

Lemma on_second_tick_waits_witness :
  let this := set_countdown_timer 5 (Example.load Example.minimal) in
  let this' :=
    object_after
      (on_second_tick (Example.hotend_at (Float32.of_Z 200)) Example.accepting) this in
  is_int16 (countdown_timer this) = true
  /\ 1 < countdown_timer this
  /\ countdown_timer this' = 4
  /\ trace_of
       (on_second_tick (Example.hotend_at (Float32.of_Z 200)) Example.accepting) this
     = [].
Proof.
  cbv zeta.
  assert (H1 : is_int16 (countdown_timer
                 (set_countdown_timer 5 (Example.load Example.minimal))) = true)
    by reflexivity.
  assert (H2 : 1 < countdown_timer
                 (set_countdown_timer 5 (Example.load Example.minimal)))
    by (cbn; lia).
  destruct (on_second_tick_waits (Example.hotend_at (Float32.of_Z 200))
              Example.accepting _ H1 H2) as (Hc & Ht & _).
  split; [exact H1 | ]. split; [exact H2 | ]. split; [exact Hc | exact Ht].
Defined.

(** C5, as amended.  On a tick with the timer at 1 or below, with
    [temp] the sampled temperature: if [temp <= min_fade_temp] the tick
    dispatches [min_fade_pwm] and reloads the timer from the heat-up poll;
    else if [temp >= max_fade_temp] it dispatches [max_fade_pwm] and
    reloads from the cool-down poll; else it dispatches
    [min_fade_pwm + int(frac * (max_fade_pwm - min_fade_pwm))], with
    [frac = (temp - min_fade_temp) / (max_fade_temp - min_fade_temp)] and
    [int] cutting the fraction off, and reloads from the fading poll.
    After the reload the timer equals the poll whenever the poll fits the
    timer's 16 signed bits.  The tick does the sampling, then the one
    dispatch, and changes nothing else but the timer. *)
Theorem on_second_tick_acts :
  forall (get_value : Z -> option pad_temperature)
         (set_value : switch_request -> bool) (this : TemperatureFader),
    countdown_timer this <= 1 ->
    let temp := result_of (get_highest_temperature get_value) this in
    let lo := temperaturefader_min_fade_temp this in
    let hi := temperaturefader_max_fade_temp this in
    let frac := Float32.div (Float32.sub temp lo) (Float32.sub hi lo) in
    let value := dispatch_value this temp in
    let this' := object_after (on_second_tick get_value set_value) this in
    (Float32.leb temp lo = true ->
       value = Float32.of_Z (temperaturefader_min_fade_pwm this)
       /\ (is_int16 (temperaturefader_heatup_poll this) = true ->
           countdown_timer this' = temperaturefader_heatup_poll this))
    /\ (Float32.leb temp lo = false -> Float32.geb temp hi = true ->
       value = Float32.of_Z (temperaturefader_max_fade_pwm this)
       /\ (is_int16 (temperaturefader_cooldown_poll this) = true ->
           countdown_timer this' = temperaturefader_cooldown_poll this))
    /\ (Float32.leb temp lo = false -> Float32.geb temp hi = false ->
       value
       = Float32.of_Z
           (temperaturefader_min_fade_pwm this
            + Float32.trunc
                (Float32.mul frac
                   (Float32.of_Z (temperaturefader_max_fade_pwm this
                                  - temperaturefader_min_fade_pwm this))))
       /\ (is_int16 (temperaturefader_fading_poll this) = true ->
           countdown_timer this' = temperaturefader_fading_poll this))
    /\ trace_of (on_second_tick get_value set_value) this
       = map get_temperature (temp_controllers this)
         ++ trace_of (set_pwm set_value value) this
    /\ this'
       = set_countdown_timer (countdown_timer this')
           (object_after (set_pwm set_value value) this).
Proof.
  intros get_value set_value this Ht temp lo hi frac value this'.
  pose proof (on_second_tick_acting get_value set_value this Ht) as Hrun.
  cbv zeta in Hrun. fold temp in Hrun. fold value in Hrun.
  assert (Hc : countdown_timer this' = to_int16 (next_poll this temp)).
  { unfold this', object_after. rewrite Hrun. reflexivity. }
  assert (Hfit : forall z, is_int16 z = true -> to_int16 z = z).
  { intros z Hz. apply to_int16_small. unfold is_int16 in Hz.
    apply andb_prop in Hz. lia. }
  assert (Hobj : this' = set_countdown_timer (countdown_timer this')
                           (object_after (set_pwm set_value value) this)).
  { rewrite Hc. unfold this', object_after at 1. rewrite Hrun. reflexivity. }
  assert (Htr : trace_of (on_second_tick get_value set_value) this
                = map get_temperature (temp_controllers this)
                  ++ trace_of (set_pwm set_value value) this).
  { unfold trace_of at 1. rewrite Hrun. reflexivity. }
  unfold value, dispatch_value, next_poll, branch_of in *.
  fold lo in Hc |- *. fold hi in Hc |- *.
  split; [ | split; [ | split; [ | split; [exact Htr | exact Hobj]]]].
  - intros H1. rewrite H1 in *. split; [reflexivity | ].
    intros Hz. rewrite Hc. apply Hfit, Hz.
  - intros H1 H2. rewrite H1, H2 in *. split; [reflexivity | ].
    intros Hz. rewrite Hc. apply Hfit, Hz.
  - intros H1 H2. rewrite H1, H2 in *. split; [reflexivity | ].
    intros Hz. rewrite Hc. apply Hfit, Hz.
Qed.

Lemma on_second_tick_acts_witness :
  let this := set_countdown_timer 1 (Example.load Example.minimal) in
  let get_value := Example.hotend_at (Float32.of_Z 100) in
  let temp := result_of (get_highest_temperature get_value) this in
  let this' := object_after (on_second_tick get_value Example.accepting) this in
  countdown_timer this <= 1
  /\ is_int16 (temperaturefader_fading_poll this) = true
  /\ dispatch_value this temp = Float32.of_Z 127
  /\ countdown_timer this' = 1.
Proof.
  cbv zeta.
  set (this := set_countdown_timer 1 (Example.load Example.minimal)).
  set (get_value := Example.hotend_at (Float32.of_Z 100)).
  assert (H1 : countdown_timer this <= 1) by (cbn; lia).
  assert (H2 : is_int16 (temperaturefader_fading_poll this) = true) by reflexivity.
  destruct (on_second_tick_acts get_value Example.accepting this H1)
    as (_ & _ & Hfading & _).
  destruct Hfading as [Hv Hc]; [vm_compute; reflexivity | vm_compute; reflexivity | ].
  split; [exact H1 | ]. split; [exact H2 | ]. split.
  - rewrite Hv. vm_compute. reflexivity.
  - rewrite (Hc H2). reflexivity.
Defined.

(** C5 as the spec words it fails for a heat-up poll of 40000 seconds: the
    [uint16_t] poll does not fit the [int16_t] timer, and after an idle
    tick the timer holds -25536, not the poll. *)
Lemma on_second_tick_poll_does_not_fit :
  let this := Example.load (Example.with_polls 40000 20 5 Example.minimal) in
  let get_value := Example.hotend_at (Float32.of_Z 40) in
  let temp := result_of (get_highest_temperature get_value) this in
  let this' := object_after (on_second_tick get_value Example.accepting) this in
  countdown_timer this <= 1
  /\ Float32.leb temp (temperaturefader_min_fade_temp this) = true
  /\ temperaturefader_heatup_poll this = 40000
  /\ countdown_timer this' = -25536
  /\ countdown_timer this' <> temperaturefader_heatup_poll this.
Proof.
  cbv zeta. repeat split; try (vm_compute; reflexivity); vm_compute; discriminate.
Qed.

(** C6.  The fading branch, the only one that divides by
    [max_fade_temp - min_fade_temp], is taken only between the bounds:
    with bounds that are numbers, it is taken only when
    [min_fade_temp < max_fade_temp]; with equal bounds every sampled
    temperature goes to the idle or to the full branch, and there the
    dispatched value is one of the two PWM bounds; and whatever the bounds
    are, it is never taken when [max_fade_temp <= min_fade_temp]. *)
Theorem fading_needs_a_band :
  forall (get_value : Z -> option pad_temperature) (this : TemperatureFader),
    let temp := result_of (get_highest_temperature get_value) this in
    let lo := temperaturefader_min_fade_temp this in
    let hi := temperaturefader_max_fade_temp this in
    (Float32.is_nan lo = false -> Float32.is_nan hi = false ->
     branch_of this temp = Fading -> Float32.ltb lo hi = true)
    /\ (Float32.eqb hi lo = true ->
        branch_of this temp <> Fading
        /\ (dispatch_value this temp = Float32.of_Z (temperaturefader_min_fade_pwm this)
            \/ dispatch_value this temp
               = Float32.of_Z (temperaturefader_max_fade_pwm this)))
    /\ (branch_of this temp = Fading -> Float32.leb hi lo = false).
Proof.
  intros get_value this temp lo hi.
  pose proof (sampled_not_nan get_value this) as Hnan. fold temp in Hnan.
  assert (Hdeg : Float32.eqb hi lo = true -> branch_of this temp <> Fading).
  { intros Heq. unfold branch_of. fold lo. fold hi.
    destruct (Float32Facts.equal_bounds_split temp lo hi Hnan Heq) as [H | H];
      rewrite H; [discriminate | ].
    destruct (Float32.leb temp lo); discriminate. }
  repeat split.
  - intros Hlo Hhi Hf. unfold branch_of in Hf. fold lo in Hf. fold hi in Hf.
    destruct (Float32.leb temp lo) eqn:E1; [discriminate | ].
    destruct (Float32.geb temp hi) eqn:E2; [discriminate | ].
    apply (Float32Facts.between_strict temp lo hi); assumption.
  - apply Hdeg, H.
  - specialize (Hdeg H). unfold dispatch_value.
    destruct (branch_of this temp); auto. contradiction.
  - intros Hf. unfold branch_of in Hf. fold lo in Hf. fold hi in Hf.
    destruct (Float32.leb temp lo) eqn:E1; [discriminate | ].
    destruct (Float32.geb temp hi) eqn:E2; [discriminate | ].
    apply (Float32Facts.between_not_leb temp lo hi); assumption.
Qed.

Lemma fading_needs_a_band_witness :
  let get_value := Example.hotend_at (Float32.of_Z 100) in
  let this := Example.load Example.minimal in
  let degenerate := Example.load (Example.with_temps 80 80 Example.minimal) in
  Float32.ltb (temperaturefader_min_fade_temp this)
              (temperaturefader_max_fade_temp this) = true
  /\ branch_of degenerate
       (result_of (get_highest_temperature get_value) degenerate) <> Fading.
Proof.
  cbv zeta. split.
  - apply (proj1 (fading_needs_a_band (Example.hotend_at (Float32.of_Z 100))
                    (Example.load Example.minimal)));
      vm_compute; reflexivity.
  - apply (proj1 (proj2 (fading_needs_a_band (Example.hotend_at (Float32.of_Z 100))
                           (Example.load (Example.with_temps 80 80 Example.minimal))))).
    vm_compute. reflexivity.
Defined.

(** ** The loader *)

Section LoaderFacts.

Variable get_checksum : string -> Z.
Variable config : Z -> ConfigEntry.
Variable tempcontrollers : list Z.
Variable get_value : Z -> option pad_temperature.

(** What [load_config] stores in the controller it registers: the
    settings as the entry gives them, and nothing for the fading poll, the
    last value and the state beyond what the constructor put there. *)
Lemma load_config_loaded this modcs this' ts :
  load_config get_checksum config tempcontrollers get_value this modcs
  = loaded this' ts ->
  let entry := config modcs in
  temperaturefader_min_fade_temp ts
  = by_default default_min_fade_temp (cfg_min_fade_temp entry)
  /\ temperaturefader_max_fade_temp ts
     = by_default default_max_fade_temp (cfg_max_fade_temp entry)
  /\ temperaturefader_min_fade_pwm ts
     = float_to_uint8
         (by_default (Float32.of_Z default_min_fade_pwm) (cfg_min_fade_pwm entry))
  /\ temperaturefader_max_fade_pwm ts
     = float_to_uint8
         (by_default (Float32.of_Z default_max_fade_pwm) (cfg_max_fade_pwm entry))
  /\ temperaturefader_heatup_poll ts
     = float_to_uint16
         (by_default (Float32.of_Z default_heatup_poll) (cfg_heatup_poll entry))
  /\ temperaturefader_cooldown_poll ts
     = float_to_uint16
         (by_default (Float32.of_Z default_cooldown_poll) (cfg_cooldown_poll entry))
  /\ temperaturefader_fading_poll ts = default_fading_poll
  /\ countdown_timer ts = to_int16 (temperaturefader_heatup_poll ts)
  /\ temperaturefader_pwm_value ts = Float32.of_Z 0
  /\ temperaturefader_state ts = false
  /\ temp_controllers ts <> [].
Proof.
  unfold load_config.
  destruct (negb (by_default false (cfg_enable (config modcs)))); [discriminate | ].
  match goal with |- context [ Ascii.eqb ?d Ascii.zero ] =>
    destruct (Ascii.eqb d Ascii.zero); [discriminate | ];
    generalize (matching_controllers tempcontrollers get_value d)
  end.
  intros l. cbn [temp_controllers set_temp_controllers].
  destruct l as [ | c l]; [discriminate | ].
  match goal with |- context [ if empty ?s then not_loaded_this_deleted _ else _ ] =>
    destruct (empty s); [discriminate | ]
  end.
  intros H. injection H as _ <-. cbn. repeat split. discriminate.
Qed.

End LoaderFacts.

Lemma float_to_uint8_range x : 0 <= float_to_uint8 x <= 255.
Proof.
  unfold float_to_uint8, to_uint8.
  pose proof (Z.mod_pos_bound (Float32.trunc x) 256). lia.
Qed.

(** C1: the code does not clamp.  From an entry with
    [min_fade_temp 100], [max_fade_temp 60], [min_fade_pwm 200] and
    [max_fade_pwm 100] the loader registers a controller that holds these
    four values as they are, the high bounds below the low ones; the two
    comparisons in [load_config] ran on the loader's own fields, which hold
    the defaults, and changed nothing. *)
Theorem load_config_keeps_inverted_bounds :
  let entry :=
    Example.with_pwms 200 100 (Example.with_temps 100 60 Example.minimal) in
  exists this' ts,
    Example.load_hotend entry = loaded this' ts
    /\ this' = new_TemperatureFader
    /\ temperaturefader_min_fade_temp ts = Float32.of_Z 100
    /\ temperaturefader_max_fade_temp ts = Float32.of_Z 60
    /\ Float32.ltb (temperaturefader_max_fade_temp ts)
                   (temperaturefader_min_fade_temp ts) = true
    /\ temperaturefader_min_fade_pwm ts = 200
    /\ temperaturefader_max_fade_pwm ts = 100.
Proof.
  cbv zeta. eexists. eexists. split; [vm_compute; reflexivity | ].
  repeat split.
Qed.

(** C3: the code never reads the fading poll.  From an entry with
    [fading_poll 5] the loader registers a controller whose fading poll is
    the constructor's 1; the polls that [load_config] does read arrive. *)
Theorem load_config_ignores_fading_poll :
  let entry := Example.with_polls 30 90 5 Example.minimal in
  exists this' ts,
    Example.load_hotend entry = loaded this' ts
    /\ cfg_fading_poll entry = Some (Float32.of_Z 5)
    /\ temperaturefader_heatup_poll ts = 30
    /\ temperaturefader_cooldown_poll ts = 90
    /\ temperaturefader_fading_poll ts = 1.
Proof.
  cbv zeta. eexists. eexists. split; [vm_compute; reflexivity | ].
  repeat split.
Qed.

(** C2, as amended.  A controller that the loader has just registered
    holds 0.0 as its last value and [false] as its state.  Its first
    dispatch of a value that differs from 0.0 is carried out and writes the
    value to the switch; its first dispatch of a value equal to 0.0 is
    suppressed: no event, no change. *)
Theorem first_dispatch_after_load :
  forall (get_checksum : string -> Z) (config : Z -> ConfigEntry)
         (tempcontrollers : list Z) (get_value : Z -> option pad_temperature)
         (this : TemperatureFader) (modcs : Z) (this' ts : TemperatureFader),
    load_config get_checksum config tempcontrollers get_value this modcs
    = loaded this' ts ->
    temperaturefader_pwm_value ts = Float32.zero
    /\ temperaturefader_state ts = false
    /\ forall (set_value : switch_request -> bool) (value : float),
         (Float32.neb Float32.zero value = true ->
          set_pwm set_value value ts
          = (tt, dispatched value ts, dispatch_trace set_value value ts)
          /\ In (set_switch (value_request (temperaturefader_switch_cs ts) value))
                (trace_of (set_pwm set_value value) ts))
         /\ (Float32.eqb Float32.zero value = true ->
             set_pwm set_value value ts = (tt, ts, [])).
Proof.
  intros get_checksum config tempcontrollers get_value this modcs this' ts Hload.
  destruct (load_config_loaded _ _ _ _ _ _ _ _ Hload)
    as (_ & _ & _ & _ & _ & _ & _ & _ & Hv & Hs & _).
  change (Float32.of_Z 0) with Float32.zero in Hv.
  split; [exact Hv | ]. split; [exact Hs | ].
  intros set_value value. split.
  - intros Hne.
    assert (E : Float32.eqb (temperaturefader_pwm_value ts) value = false).
    { rewrite Hv. unfold Float32.neb in Hne.
      destruct (Float32.eqb Float32.zero value); [discriminate | reflexivity]. }
    pose proof (set_pwm_dispatched set_value value ts E) as Hrun.
    split; [exact Hrun | ].
    unfold trace_of. rewrite Hrun. cbn [snd].
    unfold dispatch_trace, write_once. apply in_or_app. right. left. reflexivity.
  - intros Heq. apply set_pwm_suppressed. rewrite Hv. exact Heq.
Qed.

Lemma first_dispatch_after_load_witness :
  let ts := Example.load Example.minimal in
  Example.load_hotend Example.minimal = loaded new_TemperatureFader ts
  /\ temperaturefader_pwm_value ts = Float32.zero
  /\ In (set_switch (value_request (temperaturefader_switch_cs ts) (Float32.of_Z 255)))
        (trace_of (set_pwm Example.accepting (Float32.of_Z 255)) ts).
Proof.
  cbv zeta.
  assert (H : Example.load_hotend Example.minimal
              = loaded new_TemperatureFader (Example.load Example.minimal))
    by (vm_compute; reflexivity).
  destruct (first_dispatch_after_load _ _ _ _ _ _ _ _ H) as (Hv & _ & Hd).
  split; [exact H | ]. split; [exact Hv | ].
  apply (proj1 (Hd Example.accepting (Float32.of_Z 255))).
  vm_compute. reflexivity.
Defined.

(** C2 as the spec words it fails on the controller made from the default
    settings: [min_fade_pwm] is 0, the last value starts at 0.0, and the
    first dispatch, of the value 0, is suppressed; over the first fifteen
    seconds of a cold hotend the fifteenth tick acts, reads the temperature
    and writes nothing. *)
Lemma zero_is_suppressed_at_first :
  let ts := Example.load Example.minimal in
  let ticks := seconds (Example.hotend_at (Float32.of_Z 20)) Example.accepting in
  Example.load_hotend Example.minimal = loaded new_TemperatureFader ts
  /\ temperaturefader_min_fade_pwm ts = 0
  /\ trace_of (set_pwm Example.accepting
                 (Float32.of_Z (temperaturefader_min_fade_pwm ts))) ts = []
  /\ trace_of (ticks 14%nat) ts = []
  /\ trace_of (ticks 15%nat) ts = [get_temperature 7]
  /\ filter is_write (trace_of (ticks 15%nat) ts) = [].
Proof.
  cbv zeta. repeat split; vm_compute; reflexivity.
Qed.

(** ** The state follows the value *)

Lemma set_countdown_timer_keeps_state_matches_value z this :
  state_matches_value this -> state_matches_value (set_countdown_timer z this).
Proof. intros H. exact H. Qed.

Lemma on_second_tick_keeps_state_matches_value get_value set_value this :
  state_matches_value this ->
  state_matches_value (object_after (on_second_tick get_value set_value) this).
Proof.
  intros Hinv. destruct (Z_le_gt_dec (countdown_timer this) 1) as [Ht | Ht].
  - unfold object_after at 1.
    rewrite (on_second_tick_acting get_value set_value this Ht). cbn [fst snd].
    apply set_countdown_timer_keeps_state_matches_value.
    apply set_pwm_keeps_state_matches_value, Hinv.
  - unfold object_after.
    rewrite (on_second_tick_waiting get_value set_value this) by lia.
    exact Hinv.
Qed.

(** C10.  [temperaturefader_state] equals
    [temperaturefader_pwm_value > temperaturefader_min_fade_pwm] in the
    object the constructor builds and in every controller the loader
    registers (value 0.0, state false, and a [uint8_t] low bound is not
    below zero), and every call of [set_pwm] and every tick keeps it so. *)
Theorem state_matches_value_invariant :
  state_matches_value new_TemperatureFader
  /\ (forall (get_checksum : string -> Z) (config : Z -> ConfigEntry)
             (tempcontrollers : list Z) (get_value : Z -> option pad_temperature)
             (this : TemperatureFader) (modcs : Z) (this' ts : TemperatureFader),
        load_config get_checksum config tempcontrollers get_value this modcs
        = loaded this' ts ->
        state_matches_value ts)
  /\ (forall (set_value : switch_request -> bool) (value : float)
             (this : TemperatureFader),
        state_matches_value this ->
        state_matches_value (object_after (set_pwm set_value value) this))
  /\ (forall (get_value : Z -> option pad_temperature)
             (set_value : switch_request -> bool) (this : TemperatureFader),
        state_matches_value this ->
        state_matches_value (object_after (on_second_tick get_value set_value) this)).
Proof.
  split; [reflexivity | ]. split; [ | split].
  - intros get_checksum config tempcontrollers get_value this modcs this' ts Hload.
    destruct (load_config_loaded _ _ _ _ _ _ _ _ Hload)
      as (_ & _ & Hlo & _ & _ & _ & _ & _ & Hv & Hs & _).
    unfold state_matches_value. rewrite Hs, Hv, Hlo.
    symmetry. apply Float32Facts.of_Z_nonneg. apply float_to_uint8_range.
  - apply set_pwm_keeps_state_matches_value.
  - apply on_second_tick_keeps_state_matches_value.
Qed.

Lemma state_matches_value_invariant_witness :
  let ts := Example.load (Example.with_pwms 10 200 Example.minimal) in
  let tick := on_second_tick (Example.hotend_at (Float32.of_Z 100)) Example.rejecting in
  state_matches_value ts
  /\ state_matches_value (object_after (set_pwm Example.accepting (Float32.of_Z 10)) ts)
  /\ state_matches_value (object_after tick (set_countdown_timer 1 ts)).
Proof.
  cbv zeta.
  destruct state_matches_value_invariant as (_ & Hload & Hset & Htick).
  assert (H : state_matches_value
                (Example.load (Example.with_pwms 10 200 Example.minimal))).
  { apply (Hload Example.checksum
             (fun _ => Example.with_pwms 10 200 Example.minimal)
             Example.pool (Example.hotend_at (Float32.of_Z 20))
             new_TemperatureFader (Example.checksum "hotend")
             new_TemperatureFader).
    vm_compute. reflexivity. }
  split; [exact H | ]. split.
  - apply Hset, H.
  - apply Htick. exact H.
Defined.

(** ** The fields stay within their types *)

Lemma load_config_well_typed get_checksum config tempcontrollers get_value
    this modcs this' ts :
  load_config get_checksum config tempcontrollers get_value this modcs
  = loaded this' ts ->
  well_typed ts = true.
Proof.
  intros Hload.
  destruct (load_config_loaded _ _ _ _ _ _ _ _ Hload)
    as (_ & _ & Hlo & Hhi & Hh & Hc & Hf & Ht & _).
  unfold well_typed. rewrite Ht, Hf, Hc, Hh, Hhi, Hlo.
  unfold float_to_uint8, float_to_uint16.
  rewrite !to_uint8_range, !to_uint16_range, to_int16_range. reflexivity.
Qed.


(** * Further facts about the loader *)

Section LoaderOutcome.

Variable get_checksum : string -> Z.
Variable config : Z -> ConfigEntry.
Variable tempcontrollers : list Z.
Variable get_value : Z -> option pad_temperature.

Local Abbreviation load :=
  (load_config get_checksum config tempcontrollers get_value).
Local Abbreviation designator_of := (resolved_designator get_checksum config).
Local Abbreviation matching := (matching_controllers tempcontrollers get_value).

(** The three ways out of [load_config], by the four conditions it
    checks. *)
Lemma load_config_by_conditions this modcs :
  match load this modcs with
  | loaded this' ts =>
      accepted get_checksum config tempcontrollers get_value modcs = true
      /\ temp_controllers ts = matching (designator_of modcs)
      /\ temperaturefader_switch_cs ts = get_checksum (switch_name config modcs)
  | not_loaded_this_deleted _ =>
      deletes_loader get_checksum config tempcontrollers get_value modcs = true
  | not_loaded this' =>
      this' = this
      /\ accepted get_checksum config tempcontrollers get_value modcs = false
      /\ deletes_loader get_checksum config tempcontrollers get_value modcs = false
  end.
Proof.
  unfold load_config, accepted, deletes_loader, enabled, has_controllers,
    resolved_designator, switch_name.
  destruct (by_default false (cfg_enable (config modcs))); cbn [negb andb];
    [ | repeat split ].
  match goal with |- context [ Ascii.eqb ?d Ascii.zero ] =>
    destruct (Ascii.eqb d Ascii.zero); cbn [negb andb]; [repeat split | ];
    generalize (matching_controllers tempcontrollers get_value d)
  end.
  intros l. cbn [temp_controllers set_temp_controllers].
  destruct l as [ | c l]; cbn [andb]; [repeat split | ].
  match goal with |- context [ if empty ?s then not_loaded_this_deleted _ else _ ] =>
    destruct (empty s); cbn [negb andb]; [reflexivity | ]
  end.
  cbn. repeat split.
Qed.

(** The controller that is created owes nothing to the loading instance. *)
Lemma created_whatever_the_loader this1 this2 modcs :
  created (load this1 modcs) = created (load this2 modcs).
Proof.
  unfold load_config.
  destruct (negb (by_default false (cfg_enable (config modcs)))); [reflexivity | ].
  match goal with |- context [ Ascii.eqb ?d Ascii.zero ] =>
    destruct (Ascii.eqb d Ascii.zero); [reflexivity | ];
    generalize (matching_controllers tempcontrollers get_value d)
  end.
  intros l. cbn [temp_controllers set_temp_controllers].
  destruct l as [ | c l]; [reflexivity | ].
  match goal with |- context [ if empty ?s then not_loaded_this_deleted _ else _ ] =>
    destruct (empty s); reflexivity
  end.
Qed.

(** What a successful call leaves in the loading instance: its own high
    bounds raised to its low bounds where they were below. *)
Lemma loader_after_load this modcs this' ts :
  load this modcs = loaded this' ts ->
  let clamp_temp (t : TemperatureFader) :=
    if Float32.ltb (temperaturefader_max_fade_temp t)
                   (temperaturefader_min_fade_temp t)
    then set_max_fade_temp (temperaturefader_min_fade_temp t) t else t in
  let clamp_pwm (t : TemperatureFader) :=
    if temperaturefader_max_fade_pwm t <? temperaturefader_min_fade_pwm t
    then set_max_fade_pwm (temperaturefader_min_fade_pwm t) t else t in
  this' = clamp_pwm (clamp_temp this).
Proof.
  unfold load_config.
  destruct (negb (by_default false (cfg_enable (config modcs)))); [discriminate | ].
  match goal with |- context [ Ascii.eqb ?d Ascii.zero ] =>
    destruct (Ascii.eqb d Ascii.zero); [discriminate | ];
    generalize (matching_controllers tempcontrollers get_value d)
  end.
  intros l. cbn [temp_controllers set_temp_controllers].
  destruct l as [ | c l]; [discriminate | ].
  match goal with |- context [ if empty ?s then not_loaded_this_deleted _ else _ ] =>
    destruct (empty s); [discriminate | ]
  end.
  intros H. injection H as <- _. reflexivity.
Qed.

(** X1.  [load_config] registers a controller exactly for an entry that is
    enabled, whose designator resolves (a configured one, or 'T' for the
    module "hotend"), for which at least one controller of the pool answers
    with that designator, and that names a switch ([switch], or else
    [type]).  It deletes the loading instance exactly when all of this
    holds but the switch name.  In every other case it returns false and
    leaves the loading instance as it was. *)
Theorem load_config_outcome :
  forall (this : TemperatureFader) (modcs : Z),
    (accepted get_checksum config tempcontrollers get_value modcs = true
     <-> exists this' ts, load this modcs = loaded this' ts)
    /\ (deletes_loader get_checksum config tempcontrollers get_value modcs = true
        <-> exists ts, load this modcs = not_loaded_this_deleted ts)
    /\ (accepted get_checksum config tempcontrollers get_value modcs = false ->
        deletes_loader get_checksum config tempcontrollers get_value modcs = false ->
        load this modcs = not_loaded this)
    /\ (enabled config modcs = false -> load this modcs = not_loaded this).
Proof.
  intros this modcs.
  pose proof (load_config_by_conditions this modcs) as H.
  assert (Hexcl : accepted get_checksum config tempcontrollers get_value modcs = true ->
                  deletes_loader get_checksum config tempcontrollers get_value modcs
                  = true -> False).
  { unfold accepted, deletes_loader.
    destruct (empty (switch_name config modcs));
      rewrite ?andb_false_r, ?andb_true_r; cbn; congruence. }
  assert (Hen : enabled config modcs = false ->
                accepted get_checksum config tempcontrollers get_value modcs = false
                /\ deletes_loader get_checksum config tempcontrollers get_value modcs
                   = false).
  { unfold accepted, deletes_loader. intros ->. split; reflexivity. }
  destruct (load this modcs) as [this' | ts | this' ts] eqn:E.
  - destruct H as (-> & Ha & Hd). repeat split; try congruence.
    + intros (? & ? & ?). discriminate.
    + intros (? & ?). discriminate.
  - repeat split; try congruence.
    + intros Ha. exfalso. exact (Hexcl Ha H).
    + intros (? & ? & ?). discriminate.
    + intros _. eexists. reflexivity.
    + intros Hen'. destruct (Hen Hen') as [_ Hd]. congruence.
  - destruct H as (Ha & _). repeat split; try congruence.
    + intros _. eexists. eexists. reflexivity.
    + intros Hd. exfalso. exact (Hexcl Ha Hd).
    + intros (? & ?). discriminate.
    + intros Hen'. destruct (Hen Hen') as [Ha' _]. congruence.
Qed.

(** X2.  The controllers a new controller is bound to are those of the
    pool that answer and whose designator starts with the resolved one:
    no other, none missing, in pool order, and at least one; a pool
    without repetition gives a binding without repetition. *)
Theorem load_config_binds_matching :
  forall (this : TemperatureFader) (modcs : Z) (this' ts : TemperatureFader),
    load this modcs = loaded this' ts ->
    (forall controller,
        In controller (temp_controllers ts)
        <-> In controller tempcontrollers
            /\ exists temp, get_value controller = Some temp
                            /\ first_char (designator temp) = designator_of modcs)
    /\ temp_controllers ts
       = filter
           (fun controller =>
              match get_value controller with
              | Some temp =>
                  Ascii.eqb (first_char (designator temp)) (designator_of modcs)
              | None => false
              end)
           tempcontrollers
    /\ temp_controllers ts <> []
    /\ (NoDup tempcontrollers -> NoDup (temp_controllers ts)).
Proof.
  intros this modcs this' ts Hload.
  pose proof (load_config_by_conditions this modcs) as H.
  rewrite Hload in H. destruct H as (Ha & Hc & _).
  assert (Hin : forall controller,
             In controller (temp_controllers ts)
             <-> In controller tempcontrollers
                 /\ exists temp, get_value controller = Some temp
                                 /\ first_char (designator temp) = designator_of modcs).
  { intros controller. rewrite Hc. unfold matching_controllers.
    rewrite filter_In. split.
    - intros [Hp Hm]. split; [exact Hp | ].
      destruct (get_value controller) as [temp | ]; [ | discriminate].
      exists temp. split; [reflexivity | ]. apply Ascii.eqb_eq, Hm.
    - intros [Hp (temp & -> & Hd)]. split; [exact Hp | ].
      apply Ascii.eqb_eq, Hd. }
  split; [exact Hin | ]. split; [ | split].
  - exact Hc.
  - unfold accepted, has_controllers in Ha. rewrite Hc.
    destruct (matching_controllers tempcontrollers get_value
                (resolved_designator get_checksum config modcs));
      [ | discriminate].
    rewrite andb_false_r in Ha. discriminate.
  - intros Hnd. rewrite Hc. unfold matching_controllers.
    apply NoDup_filter, Hnd.
Qed.

(** X3.  The switch of a new controller is the one named by [switch]
    whenever that setting is not empty, whatever [type] says; [type] is
    used only when [switch] is missing or empty. *)
Theorem load_config_switch :
  forall (this : TemperatureFader) (modcs : Z) (this' ts : TemperatureFader),
    load this modcs = loaded this' ts ->
    let switch := by_default EmptyString (cfg_switch (config modcs)) in
    let type := by_default EmptyString (cfg_type (config modcs)) in
    (empty switch = false -> temperaturefader_switch_cs ts = get_checksum switch)
    /\ (empty switch = true ->
        empty type = false /\ temperaturefader_switch_cs ts = get_checksum type).
Proof.
  intros this modcs this' ts Hload switch type.
  pose proof (load_config_by_conditions this modcs) as H.
  rewrite Hload in H. destruct H as (Ha & _ & Hs).
  unfold accepted in Ha. apply andb_prop in Ha. destruct Ha as [_ Hne].
  unfold switch_name in Hs, Hne. fold switch in Hs, Hne. fold type in Hs, Hne.
  split; intros E; rewrite E in Hs, Hne.
  - exact Hs.
  - split; [ | exact Hs]. destruct (empty type); [discriminate | reflexivity].
Qed.

(** X4.  What [load_config] creates does not depend on the loading
    instance, and what it leaves in the loading instance does not depend
    on the entry: a loading instance whose own bounds are in order, as the
    constructor makes it, comes out unchanged, and any other comes out
    with its own bounds in order. *)
Theorem load_config_and_the_loader :
  forall (this : TemperatureFader) (modcs : Z) (this' ts : TemperatureFader),
    load this modcs = loaded this' ts ->
    (forall other, created (load other modcs) = Some ts)
    /\ ordered_bounds this' = true
    /\ (ordered_bounds this = true -> this' = this)
    /\ same_settings
         (set_max_fade_temp (temperaturefader_max_fade_temp this)
            (set_max_fade_pwm (temperaturefader_max_fade_pwm this) this'))
         this
    /\ countdown_timer this' = countdown_timer this
    /\ temperaturefader_pwm_value this' = temperaturefader_pwm_value this
    /\ temperaturefader_state this' = temperaturefader_state this.
Proof.
  intros this modcs this' ts Hload.
  pose proof (loader_after_load this modcs this' ts Hload) as Hthis.
  cbv zeta in Hthis. split; [ | split; [ | split]].
  - intros other. rewrite (created_whatever_the_loader other this), Hload. reflexivity.
  - rewrite Hthis. unfold ordered_bounds.
    destruct this as [tc lo hi plo phi cs hp cp fp timer last st]. cbn.
    destruct (Float32.ltb hi lo) eqn:E1; cbn;
      destruct (phi <? plo) eqn:E2; cbn;
      rewrite ?E1, ?E2, ?Z.ltb_irrefl; cbn;
      try reflexivity;
      replace (Float32.ltb lo lo) with false
        by (destruct lo; Float32Facts.order);
      reflexivity.
  - intros Hord. rewrite Hthis. unfold ordered_bounds in Hord.
    apply andb_prop in Hord. destruct Hord as [H1 H2].
    apply negb_true_iff in H1. apply negb_true_iff in H2.
    rewrite H1. rewrite H2. reflexivity.
  - rewrite Hthis. unfold same_settings.
    destruct this as [tc lo hi plo phi cs hp cp fp timer last st]. cbn.
    destruct (Float32.ltb hi lo); cbn; destruct (phi <? plo); cbn;
      repeat split.
Qed.

End LoaderOutcome.

Lemma load_config_outcome_witness :
  accepted Example.checksum Example2.config Example2.pool Example2.sensors 2 = true
  /\ (exists this' ts, Example2.load 2 = loaded this' ts)
  /\ deletes_loader Example.checksum Example2.config Example2.pool Example2.sensors 3
     = true
  /\ (exists ts, Example2.load 3 = not_loaded_this_deleted ts)
  /\ enabled Example2.config 4 = false
  /\ Example2.load 4 = not_loaded new_TemperatureFader.
Proof.
  assert (H2 : accepted Example.checksum Example2.config Example2.pool
                 Example2.sensors 2 = true) by (vm_compute; reflexivity).
  assert (H3 : deletes_loader Example.checksum Example2.config Example2.pool
                 Example2.sensors 3 = true) by (vm_compute; reflexivity).
  assert (H4 : enabled Example2.config 4 = false) by (vm_compute; reflexivity).
  split; [exact H2 | ]. split.
  - exact (proj1 (proj1 (load_config_outcome Example.checksum Example2.config
                           Example2.pool Example2.sensors new_TemperatureFader 2)) H2).
  - split; [exact H3 | ]. split.
    + exact (proj1 (proj1 (proj2 (load_config_outcome Example.checksum
                                    Example2.config Example2.pool Example2.sensors
                                    new_TemperatureFader 3))) H3).
    + split; [exact H4 | ].
      exact (proj2 (proj2 (proj2 (load_config_outcome Example.checksum
                                    Example2.config Example2.pool Example2.sensors
                                    new_TemperatureFader 4))) H4).
Defined.

Lemma load_config_binds_matching_witness :
  exists this' ts,
    Example2.load 2 = loaded this' ts
    /\ temp_controllers ts = [7; 11]
    /\ (In 7 (temp_controllers ts) <->
        In 7 Example2.pool
        /\ exists temp, Example2.sensors 7 = Some temp
                        /\ first_char (designator temp)
                           = resolved_designator Example.checksum Example2.config 2).
Proof.
  destruct (Example2.load 2) as [ | | this' ts] eqn:E;
    try (vm_compute in E; discriminate).
  exists this', ts. split; [reflexivity | ].
  split; [vm_compute in E; injection E as _ <-; reflexivity | ].
  exact (proj1 (load_config_binds_matching Example.checksum Example2.config
                  Example2.pool Example2.sensors new_TemperatureFader 2 this' ts E) 7).
Defined.

Lemma load_config_switch_witness :
  exists this1 ts1 this2 ts2,
    Example2.load 1 = loaded this1 ts1
    /\ temperaturefader_switch_cs ts1 = Example.checksum "light"
    /\ Example2.load 2 = loaded this2 ts2
    /\ temperaturefader_switch_cs ts2 = Example.checksum "fan".
Proof.
  destruct (Example2.load 1) as [ | | this1 ts1] eqn:E1;
    try (vm_compute in E1; discriminate).
  destruct (Example2.load 2) as [ | | this2 ts2] eqn:E2;
    try (vm_compute in E2; discriminate).
  exists this1, ts1, this2, ts2.
  split; [reflexivity | ]. split.
  - exact (proj1 (load_config_switch Example.checksum Example2.config Example2.pool
                    Example2.sensors new_TemperatureFader 1 this1 ts1 E1) eq_refl).
  - split; [reflexivity | ].
    exact (proj2 (proj2 (load_config_switch Example.checksum Example2.config
                           Example2.pool Example2.sensors new_TemperatureFader 2
                           this2 ts2 E2) eq_refl)).
Defined.

Lemma load_config_and_the_loader_witness :
  exists this' ts,
    Example2.load 1 = loaded this' ts
    /\ ordered_bounds new_TemperatureFader = true
    /\ this' = new_TemperatureFader
    /\ created (load_config Example.checksum Example2.config Example2.pool
                  Example2.sensors ts 1) = Some ts.
Proof.
  destruct (Example2.load 1) as [ | | this' ts] eqn:E;
    try (vm_compute in E; discriminate).
  exists this', ts.
  destruct (load_config_and_the_loader Example.checksum Example2.config Example2.pool
              Example2.sensors new_TemperatureFader 1 this' ts E)
    as (Hany & _ & Hsame & _).
  split; [reflexivity | ]. split; [reflexivity | ].
  split; [exact (Hsame eq_refl) | exact (Hany ts)].
Defined.

(** * Start-up *)

Section ModuleLoaderFacts.

Variable get_checksum : string -> Z.
Variable config : Z -> ConfigEntry.
Variable tempcontrollers : list Z.
Variable get_value : Z -> option pad_temperature.

Local Abbreviation load :=
  (load_config get_checksum config tempcontrollers get_value).
Local Abbreviation deletes :=
  (deletes_loader get_checksum config tempcontrollers get_value).
Local Abbreviation alone :=
  (loaded_alone get_checksum config tempcontrollers get_value).
Local Abbreviation modules_from :=
  (load_modules get_checksum config tempcontrollers get_value).

Lemma loaded_alone_loaded this modcs this' ts :
  load this modcs = loaded this' ts -> alone modcs = [ts].
Proof.
  intros E. unfold loaded_alone.
  rewrite (created_whatever_the_loader _ _ _ _ new_TemperatureFader this), E.
  reflexivity.
Qed.

Lemma loaded_alone_not_loaded this modcs this' :
  load this modcs = not_loaded this' -> alone modcs = [].
Proof.
  intros E. unfold loaded_alone.
  rewrite (created_whatever_the_loader _ _ _ _ new_TemperatureFader this), E.
  reflexivity.
Qed.

Lemma accepted_not_deletes modcs :
  accepted get_checksum config tempcontrollers get_value modcs = true ->
  deletes modcs = true -> False.
Proof.
  unfold accepted, deletes_loader.
  destruct (empty (switch_name config modcs));
    rewrite ?andb_false_r, ?andb_true_r; cbn; congruence.
Qed.

Lemma load_modules_through modules : forall this,
  forallb (fun m => negb (deletes m)) modules = true ->
  modules_from this modules = loader_deleted (flat_map alone modules).
Proof.
  induction modules as [ | m rest IH]; intros this Hok; [reflexivity | ].
  cbn [forallb] in Hok. apply andb_prop in Hok. destruct Hok as [Hm Hrest].
  apply negb_true_iff in Hm.
  pose proof (load_config_by_conditions get_checksum config tempcontrollers
                get_value this m) as Hc.
  cbn [load_modules flat_map].
  destruct (load this m) as [this' | ts | this' ts] eqn:E.
  - rewrite (loaded_alone_not_loaded _ _ _ E). cbn [app]. apply IH, Hrest.
  - congruence.
  - rewrite (loaded_alone_loaded _ _ _ _ E), (IH this' Hrest). reflexivity.
Qed.

Lemma load_modules_stopped before : forall this m after,
  forallb (fun m => negb (deletes m)) before = true ->
  deletes m = true ->
  modules_from this (before ++ m :: after)
  = loader_used_after_delete (flat_map alone before) m.
Proof.
  induction before as [ | b rest IH]; intros this m after Hok Hm.
  - cbn [app load_modules flat_map].
    pose proof (load_config_by_conditions get_checksum config tempcontrollers
                  get_value this m) as Hc.
    destruct (load this m) as [this' | ts | this' ts] eqn:E.
    + destruct Hc as (_ & _ & Hd). congruence.
    + reflexivity.
    + destruct Hc as (Ha & _). exfalso.
      exact (accepted_not_deletes _ Ha Hm).
  - cbn [forallb] in Hok. apply andb_prop in Hok. destruct Hok as [Hb Hrest].
    apply negb_true_iff in Hb.
    pose proof (load_config_by_conditions get_checksum config tempcontrollers
                  get_value this b) as Hc.
    cbn [app load_modules flat_map].
    destruct (load this b) as [this' | ts | this' ts] eqn:E.
    + rewrite (loaded_alone_not_loaded _ _ _ E). cbn [app]. apply IH; assumption.
    + congruence.
    + rewrite (loaded_alone_loaded _ _ _ _ E), (IH this' m after Hrest Hm).
      reflexivity.
Qed.

End ModuleLoaderFacts.

(** X5.  [on_module_loaded] loads the entries one by one, and each as if it
    were alone: as long as no entry makes [load_config] delete the loading
    instance, the controllers registered are, in the order of the module
    list, those that a freshly constructed instance would create from each
    entry, whatever instance does the loading.  An entry that is enabled,
    has matching controllers and names no switch ends it all: the
    controllers of the entries before it are registered, and the loop goes
    on with a deleted object. *)
Theorem on_module_loaded_each_alone :
  forall (get_checksum : string -> Z) (config : Z -> ConfigEntry)
         (tempcontrollers : list Z) (get_value : Z -> option pad_temperature)
         (modulist : list Z) (this : TemperatureFader),
    let deletes := deletes_loader get_checksum config tempcontrollers get_value in
    let alone := loaded_alone get_checksum config tempcontrollers get_value in
    (forallb (fun m => negb (deletes m)) modulist = true ->
     on_module_loaded get_checksum config tempcontrollers get_value modulist this
     = loader_deleted (flat_map alone modulist))
    /\ (forall before m after,
          modulist = before ++ m :: after ->
          forallb (fun m => negb (deletes m)) before = true ->
          deletes m = true ->
          on_module_loaded get_checksum config tempcontrollers get_value modulist this
          = loader_used_after_delete (flat_map alone before) m).
Proof.
  intros get_checksum config tempcontrollers get_value modulist this deletes alone.
  unfold on_module_loaded. split.
  - apply load_modules_through.
  - intros before m after ->. apply load_modules_stopped.
Qed.

Lemma on_module_loaded_each_alone_witness :
  on_module_loaded Example.checksum Example2.config Example2.pool Example2.sensors
    [4; 2; 1] new_TemperatureFader
  = loader_deleted
      (flat_map (loaded_alone Example.checksum Example2.config Example2.pool
                   Example2.sensors) [4; 2; 1])
  /\ on_module_loaded Example.checksum Example2.config Example2.pool Example2.sensors
       [2; 3; 1] new_TemperatureFader
     = loader_used_after_delete
         (flat_map (loaded_alone Example.checksum Example2.config Example2.pool
                      Example2.sensors) [2]) 3.
Proof.
  split.
  - apply (proj1 (on_module_loaded_each_alone Example.checksum Example2.config
                    Example2.pool Example2.sensors [4; 2; 1] new_TemperatureFader)).
    vm_compute. reflexivity.
  - apply (proj2 (on_module_loaded_each_alone Example.checksum Example2.config
                    Example2.pool Example2.sensors [2; 3; 1] new_TemperatureFader)
             [2] 3 [1]).
    + reflexivity.
    + vm_compute. reflexivity.
    + vm_compute. reflexivity.
Defined.





(** * Runs of ticks *)

Section RunFacts.

Variable get_value : Z -> option pad_temperature.
Variable set_value : switch_request -> bool.

Local Abbreviation tick := (on_second_tick get_value set_value).
Local Abbreviation run := (seconds get_value set_value).

Lemma seconds_first n this :
  object_after (run (S n)) this = object_after (run n) (object_after tick this)
  /\ trace_of (run (S n)) this
     = trace_of tick this ++ trace_of (run n) (object_after tick this).
Proof.
  unfold object_after, trace_of. cbn [seconds]. unfold bind.
  destruct (tick this) as [[u this1] t1]. cbn [fst snd].
  destruct (run n this1) as [[u' this2] t2]. split; reflexivity.
Qed.

Lemma seconds_sum a : forall b this,
  object_after (run (a + b)) this = object_after (run b) (object_after (run a) this)
  /\ trace_of (run (a + b)) this
     = trace_of (run a) this ++ trace_of (run b) (object_after (run a) this).
Proof.
  induction a as [ | a IH]; intros b this.
  - split; reflexivity.
  - cbn [Nat.add].
    destruct (seconds_first (a + b) this) as [Ho Ht].
    destruct (seconds_first a this) as [Ho' Ht'].
    destruct (IH b (object_after tick this)) as [IHo IHt].
    rewrite Ho, Ht, Ho', Ht', IHo, IHt, app_assoc. split; reflexivity.
Qed.

Lemma same_settings_refl this : same_settings this this.
Proof. unfold same_settings. repeat split. Qed.

Lemma same_settings_trans a b c :
  same_settings a b -> same_settings b c -> same_settings a c.
Proof.
  unfold same_settings.
  intros (A1 & A2 & A3 & A4 & A5 & A6 & A7 & A8 & A9)
         (B1 & B2 & B3 & B4 & B5 & B6 & B7 & B8 & B9).
  repeat split; congruence.
Qed.

Lemma on_second_tick_same_settings this :
  same_settings (object_after tick this) this.
Proof.
  destruct (Z_le_gt_dec (countdown_timer this) 1) as [Ht | Ht].
  - unfold object_after at 1.
    rewrite (on_second_tick_acting get_value set_value this Ht). cbn [fst snd].
    match goal with |- context [ set_pwm set_value ?v ] =>
      destruct (set_pwm_same_settings set_value v this) as [Hs _]
    end.
    exact Hs.
  - unfold object_after.
    rewrite (on_second_tick_waiting get_value set_value this) by lia.
    unfold same_settings. cbn. repeat split.
Qed.











(** The seconds before the timer runs out. *)
Lemma seconds_waiting k : forall this,
  is_int16 (countdown_timer this) = true ->
  countdown_timer this = Z.of_nat k + 1 ->
  run k this = (tt, set_countdown_timer 1 this, []).
Proof.
  induction k as [ | k IH]; intros this Hty Ht.
  - destruct this as [tc lo hi plo phi cs hp cp fp timer last st].
    cbn in Ht. subst timer. reflexivity.
  - cbn [seconds]. unfold bind.
    rewrite (on_second_tick_waiting get_value set_value this) by lia.
    rewrite to_int16_small
      by (unfold is_int16 in Hty; apply andb_prop in Hty; lia).
    rewrite IH.
    + reflexivity.
    + cbn. unfold is_int16 in *. apply andb_prop in Hty.
      apply andb_true_intro. split; apply Z.leb_le; lia.
    + cbn. lia.
Qed.

(** X10.  A timer at [t], between 1 and 32767, keeps the controller silent
    for [t - 1] seconds: no read, no write, nothing changed but the timer,
    which is down to 1.  The tick of second [t] then acts: it reads every
    bound controller, in order, and dispatches. *)
Theorem seconds_until_the_timer_runs_out :
  forall (this : TemperatureFader),
    1 <= countdown_timer this <= 32767 ->
    let k := Z.to_nat (countdown_timer this - 1) in
    let ready := set_countdown_timer 1 this in
    let temp := result_of (get_highest_temperature get_value) ready in
    run k this = (tt, ready, [])
    /\ trace_of (run (k + 1)) this
       = map get_temperature (temp_controllers this)
         ++ trace_of (set_pwm set_value (dispatch_value ready temp)) ready
    /\ countdown_timer (object_after (run (k + 1)) this)
       = to_int16 (next_poll ready temp).
Proof.
  intros this Ht k ready temp.
  assert (Hk : run k this = (tt, ready, [])).
  { apply seconds_waiting.
    - unfold is_int16. apply andb_true_intro. split; apply Z.leb_le; lia.
    - unfold k. rewrite Z2Nat.id; lia. }
  split; [exact Hk | ].
  destruct (seconds_sum k 1 this) as [Ho Htr].
  assert (Eo : object_after (run k) this = ready)
    by (unfold object_after; rewrite Hk; reflexivity).
  assert (Et : trace_of (run k) this = [])
    by (unfold trace_of; rewrite Hk; reflexivity).
  rewrite Eo in Ho, Htr. rewrite Et in Htr. cbn [app] in Htr.
  destruct (seconds_first 0 ready) as [Ho1 Ht1].
  change (object_after (run 0) (object_after tick ready))
    with (object_after tick ready) in Ho1.
  change (trace_of (run 0) (object_after tick ready))
    with (@nil event) in Ht1.
  rewrite app_nil_r in Ht1.
  assert (Hready : countdown_timer ready <= 1) by (cbn; lia).
  pose proof (on_second_tick_acting get_value set_value ready Hready) as Hact.
  cbv zeta in Hact. fold temp in Hact.
  assert (Eto : object_after tick ready = snd (fst (tick ready))) by reflexivity.
  assert (Ett : trace_of tick ready = snd (tick ready)) by reflexivity.
  rewrite Hact in Eto, Ett. cbn [fst snd] in Eto, Ett.
  rewrite Ho, Htr, Ho1, Ht1, Eto, Ett. split; reflexivity.
Qed.

End RunFacts.



Lemma seconds_until_the_timer_runs_out_witness :
  let this := Example.load Example.minimal in
  let get_value := Example.hotend_at (Float32.of_Z 100) in
  1 <= countdown_timer this <= 32767
  /\ seconds get_value Example.accepting 14 this
     = (tt, set_countdown_timer 1 this, [])
  /\ countdown_timer (object_after (seconds get_value Example.accepting 15) this) = 1.
Proof.
  cbv zeta.
  assert (H : 1 <= countdown_timer (Example.load Example.minimal) <= 32767)
    by (cbn; lia).
  destruct (seconds_until_the_timer_runs_out (Example.hotend_at (Float32.of_Z 100))
              Example.accepting (Example.load Example.minimal) H)
    as (Hk & _ & Hc).
  split; [exact H | ]. split; [exact Hk | ].
  change (15%nat) with (Z.to_nat (countdown_timer (Example.load Example.minimal) - 1)
                        + 1)%nat.
  rewrite Hc. vm_compute. reflexivity.
Defined.

(** * Whole numbers through binary32 *)

Lemma all_from_spec f n : forall z,
  all_from f n z = true ->
  forall x, z <= x < z + Z.of_nat n -> f x = true.
Proof.
  induction n as [ | n IH]; intros z H x Hx; [lia | ].
  cbn [all_from] in H. apply andb_prop in H. destruct H as [Hz Hrest].
  destruct (Z.eq_dec x z) as [-> | Hne]; [exact Hz | ].
  apply (IH (z + 1) Hrest). lia.
Qed.

(** A [uint16_t] survives the conversion to [float] and back. *)
Lemma trunc_of_Z_uint16 n :
  0 <= n <= 65535 -> Float32.trunc (Float32.of_Z n) = n.
Proof.
  intros Hn.
  assert (H : all_from (fun z => Float32.trunc (Float32.of_Z z) =? z)
                (Z.to_nat 65536) 0 = true) by (vm_compute; reflexivity).
  apply Z.eqb_eq. apply (all_from_spec _ _ _ H). rewrite Z2Nat.id; lia.
Qed.

(** On [uint8_t] values the conversion to [float] keeps the order, and
    gives no NaN. *)
Lemma of_Z_uint8_order a b :
  0 <= a <= 255 -> 0 <= b <= 255 ->
  Float32.gtb (Float32.of_Z a) (Float32.of_Z b) = (b <? a)
  /\ Float32.is_nan (Float32.of_Z a) = false.
Proof.
  intros Ha Hb.
  assert (H : all_from
                (fun a =>
                   negb (Float32.is_nan (Float32.of_Z a))
                   && all_from
                        (fun b =>
                           Bool.eqb (Float32.gtb (Float32.of_Z a) (Float32.of_Z b))
                                    (b <? a))
                        (Z.to_nat 256) 0)
                (Z.to_nat 256) 0 = true) by (vm_compute; reflexivity).
  pose proof (all_from_spec _ _ _ H a) as Hrow. cbv beta in Hrow.
  rewrite Z2Nat.id in Hrow by lia. specialize (Hrow ltac:(lia)).
  apply andb_prop in Hrow. destruct Hrow as [Hnan Hrow].
  pose proof (all_from_spec _ _ _ Hrow b) as Hcell. cbv beta in Hcell.
  rewrite Z2Nat.id in Hcell by lia. specialize (Hcell ltac:(lia)).
  split.
  - apply eqb_prop, Hcell.
  - apply negb_true_iff, Hnan.
Qed.

Lemma float_to_uint8_of_Z n : 0 <= n <= 255 -> float_to_uint8 (Float32.of_Z n) = n.
Proof.
  intros Hn. unfold float_to_uint8, to_uint8.
  rewrite trunc_of_Z_uint16 by lia. apply Z.mod_small. lia.
Qed.

Lemma float_to_uint16_of_Z n :
  0 <= n <= 65535 -> float_to_uint16 (Float32.of_Z n) = n.
Proof.
  intros Hn. unfold float_to_uint16, to_uint16.
  rewrite trunc_of_Z_uint16 by lia. apply Z.mod_small. lia.
Qed.

(** X11.  Whole-number settings arrive in the controller as they are
    written: a PWM bound from 0 to 255 and a heat-up or cool-down poll from
    0 to 65535 are stored unchanged, and the timer starts at the heat-up
    poll when that is at most 32767.  The temperature bounds are stored as
    given.  A setting that is missing takes its default: 50 and 150
    degrees, PWM 0 and 255, polls of 15 and 60 seconds. *)
Theorem load_config_stores_settings :
  forall (get_checksum : string -> Z) (config : Z -> ConfigEntry)
         (tempcontrollers : list Z) (get_value : Z -> option pad_temperature)
         (this : TemperatureFader) (modcs : Z) (this' ts : TemperatureFader),
    load_config get_checksum config tempcontrollers get_value this modcs
    = loaded this' ts ->
    let entry := config modcs in
    (forall n, 0 <= n <= 255 ->
       (cfg_min_fade_pwm entry = Some (Float32.of_Z n) ->
        temperaturefader_min_fade_pwm ts = n)
       /\ (cfg_max_fade_pwm entry = Some (Float32.of_Z n) ->
           temperaturefader_max_fade_pwm ts = n))
    /\ (forall n, 0 <= n <= 65535 ->
          (cfg_heatup_poll entry = Some (Float32.of_Z n) ->
           temperaturefader_heatup_poll ts = n
           /\ (n <= 32767 -> countdown_timer ts = n))
          /\ (cfg_cooldown_poll entry = Some (Float32.of_Z n) ->
              temperaturefader_cooldown_poll ts = n))
    /\ (forall x, (cfg_min_fade_temp entry = Some x ->
                   temperaturefader_min_fade_temp ts = x)
                  /\ (cfg_max_fade_temp entry = Some x ->
                      temperaturefader_max_fade_temp ts = x))
    /\ (cfg_min_fade_temp entry = None ->
        temperaturefader_min_fade_temp ts = Float32.of_Z 50)
    /\ (cfg_max_fade_temp entry = None ->
        temperaturefader_max_fade_temp ts = Float32.of_Z 150)
    /\ (cfg_min_fade_pwm entry = None -> temperaturefader_min_fade_pwm ts = 0)
    /\ (cfg_max_fade_pwm entry = None -> temperaturefader_max_fade_pwm ts = 255)
    /\ (cfg_heatup_poll entry = None ->
        temperaturefader_heatup_poll ts = 15 /\ countdown_timer ts = 15)
    /\ (cfg_cooldown_poll entry = None -> temperaturefader_cooldown_poll ts = 60).
Proof.
  intros get_checksum config tempcontrollers get_value this modcs this' ts Hload entry.
  destruct (load_config_loaded _ _ _ _ _ _ _ _ Hload)
    as (Hlo & Hhi & Hplo & Hphi & Hh & Hc & _ & Ht & _).
  fold entry in Hlo, Hhi, Hplo, Hphi, Hh, Hc.
  split; [ | split; [ | split; [ | split; [ | split; [ | split;
    [ | split; [ | split]]]]]]].
  - intros n Hn. split; intros E.
    + rewrite Hplo, E. apply float_to_uint8_of_Z, Hn.
    + rewrite Hphi, E. apply float_to_uint8_of_Z, Hn.
  - intros n Hn. split; intros E.
    + assert (Hp : temperaturefader_heatup_poll ts = n).
      { rewrite Hh, E. apply float_to_uint16_of_Z, Hn. }
      split; [exact Hp | ].
      intros Hfit. rewrite Ht, Hp. apply to_int16_small. lia.
    + rewrite Hc, E. apply float_to_uint16_of_Z, Hn.
  - intros x. split; intros E.
    + rewrite Hlo, E. reflexivity.
    + rewrite Hhi, E. reflexivity.
  - intros E. rewrite Hlo, E. reflexivity.
  - intros E. rewrite Hhi, E. reflexivity.
  - intros E. rewrite Hplo, E. reflexivity.
  - intros E. rewrite Hphi, E. reflexivity.
  - intros E. rewrite Ht, Hh, E. split; reflexivity.
  - intros E. rewrite Hc, E. reflexivity.
Qed.

Lemma load_config_stores_settings_witness :
  exists this' ts,
    Example.load_hotend
      (Example.with_pwms 10 200 (Example.with_polls 30 90 5 Example.minimal))
    = loaded this' ts
    /\ temperaturefader_min_fade_pwm ts = 10
    /\ temperaturefader_heatup_poll ts = 30
    /\ countdown_timer ts = 30
    /\ temperaturefader_min_fade_temp ts = Float32.of_Z 50.
Proof.
  destruct (Example.load_hotend
              (Example.with_pwms 10 200 (Example.with_polls 30 90 5 Example.minimal)))
    as [ | | this' ts] eqn:E; try (vm_compute in E; discriminate).
  exists this', ts. split; [reflexivity | ].
  destruct (load_config_stores_settings _ _ _ _ _ _ _ _ E)
    as (Hpwm & Hpoll & _ & Hlo & _).
  destruct (Hpwm 10 ltac:(lia)) as [Hmin _].
  destruct (Hpoll 30 ltac:(lia)) as [Hheat _].
  destruct (Hheat eq_refl) as [Hp Ht].
  split; [exact (Hmin eq_refl) | ].
  split; [exact Hp | ]. split; [apply Ht; lia | exact (Hlo eq_refl)].
Defined.

(** * From start-up to the first sampling *)

(** X12.  A controller that has just been registered stays silent for
    [heatup_poll - 1] seconds, whatever the temperatures are, and samples
    for the first time at second [heatup_poll], when that poll is between
    1 and 32767.  With a heat-up poll of 0, or one above 32767, which the
    timer cannot hold, its timer starts at 1 or below and its first tick
    samples. *)
Theorem first_sampling_after_load :
  forall (get_checksum : string -> Z) (config : Z -> ConfigEntry)
         (tempcontrollers : list Z) (get_value : Z -> option pad_temperature)
         (this : TemperatureFader) (modcs : Z) (this' ts : TemperatureFader)
         (sensors : Z -> option pad_temperature)
         (set_value : switch_request -> bool),
    load_config get_checksum config tempcontrollers get_value this modcs
    = loaded this' ts ->
    let poll := temperaturefader_heatup_poll ts in
    let ready := set_countdown_timer 1 ts in
    (1 <= poll <= 32767 ->
     seconds sensors set_value (Z.to_nat (poll - 1)) ts = (tt, ready, [])
     /\ trace_of (on_second_tick sensors set_value) ready
        = map get_temperature (temp_controllers ts)
          ++ trace_of
               (set_pwm set_value
                  (dispatch_value ready
                     (result_of (get_highest_temperature sensors) ready))) ready)
    /\ (poll = 0 \/ 32767 < poll ->
        countdown_timer ts <= 1
        /\ trace_of (on_second_tick sensors set_value) ts
           = map get_temperature (temp_controllers ts)
             ++ trace_of
                  (set_pwm set_value
                     (dispatch_value ts
                        (result_of (get_highest_temperature sensors) ts))) ts).
Proof.
  intros get_checksum config tempcontrollers get_value this modcs this' ts
         sensors set_value Hload poll ready.
  destruct (load_config_loaded _ _ _ _ _ _ _ _ Hload)
    as (_ & _ & _ & _ & _ & _ & _ & Ht & _).
  pose proof (load_config_well_typed _ _ _ _ _ _ _ _ Hload) as Hwt.
  assert (Hpoll : 0 <= poll <= 65535).
  { unfold well_typed in Hwt. do 5 (apply andb_prop in Hwt; destruct Hwt as [Hwt ?]).
    unfold poll.
    match goal with H : is_uint16 (temperaturefader_heatup_poll ts) = true |- _ =>
      unfold is_uint16 in H; apply andb_prop in H; lia
    end. }
  fold poll in Ht. split.
  - intros Hfit.
    assert (Etimer : countdown_timer ts = poll)
      by (rewrite Ht; apply to_int16_small; lia).
    split.
    + apply seconds_waiting.
      * unfold is_int16. rewrite Etimer. apply andb_true_intro.
        split; apply Z.leb_le; lia.
      * rewrite Etimer, Z2Nat.id; lia.
    + unfold trace_of at 1.
      rewrite (on_second_tick_acting sensors set_value ready) by (cbn; lia).
      reflexivity.
  - intros Hout.
    assert (Etimer : countdown_timer ts <= 1).
    { rewrite Ht. unfold to_int16. destruct Hout as [-> | Hbig]; [cbn; lia | ].
      replace ((poll + 32768) mod 65536) with (poll + 32768 - 65536).
      - lia.
      - apply Z.mod_unique with (q := 1); lia. }
    split; [exact Etimer | ].
    unfold trace_of at 1.
    rewrite (on_second_tick_acting sensors set_value ts Etimer). reflexivity.
Qed.

Lemma first_sampling_after_load_witness :
  let ts := Example.load Example.minimal in
  let late := Example.load (Example.with_polls 40000 20 5 Example.minimal) in
  seconds (Example.hotend_at (Float32.of_Z 100)) Example.accepting 14 ts
  = (tt, set_countdown_timer 1 ts, [])
  /\ countdown_timer late <= 1.
Proof.
  cbv zeta.
  assert (H1 : Example.load_hotend Example.minimal
               = loaded new_TemperatureFader (Example.load Example.minimal))
    by (vm_compute; reflexivity).
  assert (H2 : Example.load_hotend (Example.with_polls 40000 20 5 Example.minimal)
               = loaded new_TemperatureFader
                   (Example.load (Example.with_polls 40000 20 5 Example.minimal)))
    by (vm_compute; reflexivity).
  split.
  - apply (proj1 (first_sampling_after_load _ _ _ _ _ _ _ _
                    (Example.hotend_at (Float32.of_Z 100)) Example.accepting H1)).
    vm_compute. split; discriminate.
  - apply (proj2 (first_sampling_after_load _ _ _ _ _ _ _ _
                    (Example.hotend_at (Float32.of_Z 100)) Example.accepting H2)).
    right. vm_compute. reflexivity.
Defined.

(** * The state after an acting tick *)

Lemma eqb_gtb_false a b : Float32.eqb a b = true -> Float32.gtb a b = false.
Proof. Float32Facts.by_cases2 a b. Qed.

Lemma eqb_compare_left a b c :
  Float32.eqb a b = true -> SFcompare a c = SFcompare b c.
Proof.
  destruct a as [? | ? | | ? ? ?], b as [? | ? | | ? ? ?], c as [? | ? | | ? ? ?];
    intros; Float32Facts.order; subst; try reflexivity;
    try (rewrite ?Z.compare_refl, ?Pos.compare_cont_refl; reflexivity).
Qed.

Lemma eqb_gtb_left a b c :
  Float32.eqb a b = true -> Float32.gtb a c = Float32.gtb b c.
Proof.
  intros H. unfold Float32.gtb. rewrite (eqb_compare_left a b c H). reflexivity.
Qed.

Lemma set_pwm_settles set_value value this :
  Float32.is_nan value = false ->
  state_matches_value this ->
  let this' := object_after (set_pwm set_value value) this in
  Float32.eqb (temperaturefader_pwm_value this') value = true
  /\ temperaturefader_state this'
     = Float32.gtb value (Float32.of_Z (temperaturefader_min_fade_pwm this)).
Proof.
  intros Hv Hinv this'. unfold this', object_after.
  destruct (Float32.eqb (temperaturefader_pwm_value this) value) eqn:E.
  - rewrite (set_pwm_suppressed _ _ _ E). cbn [fst snd].
    split; [exact E | ].
    rewrite Hinv. apply eqb_gtb_left, E.
  - rewrite (set_pwm_dispatched _ _ _ E). cbn.
    split; [apply Float32Facts.eqb_refl, Hv | reflexivity].
Qed.

(** X13.  After an acting tick of a well-typed controller whose state
    matches its last value: in the idle branch the last value equals
    [min_fade_pwm] and the state is off; in the full branch the last value
    equals [max_fade_pwm] and the state is on exactly when
    [min_fade_pwm < max_fade_pwm], so that a controller loaded with its PWM
    bounds equal or the wrong way round is off at full temperature. *)
Theorem acting_tick_settles_the_state :
  forall (get_value : Z -> option pad_temperature)
         (set_value : switch_request -> bool) (this : TemperatureFader),
    well_typed this = true ->
    state_matches_value this ->
    countdown_timer this <= 1 ->
    let temp := result_of (get_highest_temperature get_value) this in
    let this' := object_after (on_second_tick get_value set_value) this in
    (branch_of this temp = Idle ->
     Float32.eqb (temperaturefader_pwm_value this')
                 (Float32.of_Z (temperaturefader_min_fade_pwm this)) = true
     /\ temperaturefader_state this' = false)
    /\ (branch_of this temp = Full ->
        Float32.eqb (temperaturefader_pwm_value this')
                    (Float32.of_Z (temperaturefader_max_fade_pwm this)) = true
        /\ temperaturefader_state this'
           = (temperaturefader_min_fade_pwm this <? temperaturefader_max_fade_pwm this)).
Proof.
  intros get_value set_value this Hwt Hinv Ht temp this'.
  assert (Hlo : 0 <= temperaturefader_min_fade_pwm this <= 255
                /\ 0 <= temperaturefader_max_fade_pwm this <= 255).
  { unfold well_typed in Hwt. do 5 (apply andb_prop in Hwt; destruct Hwt as [Hwt ?]).
    match goal with H : is_uint8 (temperaturefader_max_fade_pwm this) = true |- _ =>
      unfold is_uint8 in H, Hwt; apply andb_prop in H; apply andb_prop in Hwt; lia
    end. }
  destruct Hlo as [Hlo Hhi].
  assert (Hobj : this'
                 = set_countdown_timer (to_int16 (next_poll this temp))
                     (object_after (set_pwm set_value (dispatch_value this temp)) this)).
  { unfold this', object_after at 1.
    rewrite (on_second_tick_acting get_value set_value this Ht). reflexivity. }
  rewrite Hobj. cbn [temperaturefader_pwm_value temperaturefader_state
                     set_countdown_timer].
  unfold dispatch_value. split; intros Hb; rewrite Hb.
  - destruct (of_Z_uint8_order _ _ Hlo Hlo) as [Hgt Hnan].
    destruct (set_pwm_settles set_value _ this Hnan Hinv) as [He Hs].
    split; [exact He | ]. rewrite Hs, Hgt. apply Z.ltb_irrefl.
  - destruct (of_Z_uint8_order _ _ Hhi Hlo) as [Hgt Hnan].
    destruct (set_pwm_settles set_value _ this Hnan Hinv) as [He Hs].
    split; [exact He | ]. rewrite Hs, Hgt. reflexivity.
Qed.

Lemma acting_tick_settles_the_state_witness :
  let this :=
    set_countdown_timer 1 (Example.load (Example.with_pwms 200 100 Example.minimal)) in
  let get_value := Example.hotend_at (Float32.of_Z 250) in
  let this' := object_after (on_second_tick get_value Example.accepting) this in
  branch_of this (result_of (get_highest_temperature get_value) this) = Full
  /\ temperaturefader_state this' = false.
Proof.
  cbv zeta.
  set (this := set_countdown_timer 1
                 (Example.load (Example.with_pwms 200 100 Example.minimal))).
  assert (Hb : branch_of this
                 (result_of (get_highest_temperature
                               (Example.hotend_at (Float32.of_Z 250))) this) = Full)
    by (vm_compute; reflexivity).
  split; [exact Hb | ].
  destruct (proj2 (acting_tick_settles_the_state
                     (Example.hotend_at (Float32.of_Z 250)) Example.accepting this
                     eq_refl eq_refl ltac:(cbn; lia)) Hb) as [_ Hs].
  rewrite Hs. reflexivity.
Defined.

(** * Sampling and the order of the controllers *)

Lemma leb_both_eqb a b :
  Float32.leb a b = true -> Float32.leb b a = true -> Float32.eqb a b = true.
Proof. Float32Facts.by_cases2 a b. Qed.

Lemma fold_max_below rs rs' :
  (forall r, In r rs -> In r rs') ->
  Float32.leb (fold_left float_max rs Float32.zero)
              (fold_left float_max rs' Float32.zero) = true.
Proof.
  intros Hsub.
  destruct (fold_max_mem rs Float32.zero) as [E | Hin].
  - rewrite E. apply fold_max_ge_init. reflexivity.
  - apply fold_max_upper.
    + reflexivity.
    + apply Hsub, Hin.
    + apply fold_max_not_nan. reflexivity.
Qed.

(** X14.  The sampled temperature depends on which controllers are bound,
    not on their order or on repetitions: two controllers bound to the same
    set of temperature controllers sample equal temperatures, and binding
    more controllers never lowers the sample. *)
Theorem sampling_ignores_order :
  forall (get_value : Z -> option pad_temperature) (this other : TemperatureFader),
    let temp := result_of (get_highest_temperature get_value) this in
    let temp' := result_of (get_highest_temperature get_value) other in
    ((forall c, In c (temp_controllers this) -> In c (temp_controllers other)) ->
     Float32.leb temp temp' = true)
    /\ ((forall c, In c (temp_controllers this) <-> In c (temp_controllers other)) ->
        Float32.eqb temp temp' = true).
Proof.
  intros get_value this other temp temp'.
  assert (Hsub : forall a b,
             (forall c, In c (temp_controllers a) -> In c (temp_controllers b)) ->
             Float32.leb (result_of (get_highest_temperature get_value) a)
                         (result_of (get_highest_temperature get_value) b) = true).
  { intros a b Hab. unfold result_of. rewrite !get_highest_temperature_run.
    cbn [fst]. apply fold_max_below. intros r Hr.
    unfold readable_temperatures in *. apply in_flat_map in Hr.
    destruct Hr as (c & Hc & Hrc). apply in_flat_map. exists c.
    split; [apply Hab, Hc | exact Hrc]. }
  split.
  - intros H. apply Hsub, H.
  - intros H. apply leb_both_eqb; apply Hsub; intros c Hc; apply H, Hc.
Qed.

Lemma sampling_ignores_order_witness :
  let this := set_temp_controllers [7; 11] new_TemperatureFader in
  let other := set_temp_controllers [11; 7; 11] new_TemperatureFader in
  Float32.eqb (result_of (get_highest_temperature Example2.sensors) this)
              (result_of (get_highest_temperature Example2.sensors) other) = true.
Proof.
  cbv zeta.
  apply (proj2 (sampling_ignores_order Example2.sensors
                  (set_temp_controllers [7; 11] new_TemperatureFader)
                  (set_temp_controllers [11; 7; 11] new_TemperatureFader))).
  intros c. cbn. split; intros H;
    repeat match goal with
           | H : _ \/ _ |- _ => destruct H
           | H : False |- _ => destruct H
           end; auto.
Defined.

(** * Dispatched values are numbers *)

Lemma shr_1_nonneg mrs : 0 <= shr_m mrs -> 0 <= shr_m (shr_1 mrs).
Proof.
  destruct mrs as [m r s]. cbn [shr_m]. intros H.
  destruct m as [ | p | p]; [cbn; lia | | lia].
  destruct p; cbn; lia.
Qed.

Lemma iter_pos_shr_1_nonneg p : forall mrs,
  0 <= shr_m mrs -> 0 <= shr_m (iter_pos shr_1 p mrs).
Proof.
  induction p as [p IH | p IH | ]; intros mrs H; cbn [iter_pos].
  - apply IH, IH, shr_1_nonneg, H.
  - apply IH, IH, H.
  - apply shr_1_nonneg, H.
Qed.

Lemma shr_fexp_nonneg m e l :
  0 <= m -> 0 <= shr_m (fst (shr_fexp Float32.prec Float32.emax m e l)).
Proof.
  intros H. unfold shr_fexp, shr.
  assert (H0 : 0 <= shr_m (shr_record_of_loc m l)).
  { destruct l as [ | [ | | ]]; exact H. }
  destruct (fexp Float32.prec Float32.emax (Zdigits2 m + e) - e) as [ | p | p];
    cbn [fst]; [exact H0 | | exact H0].
  apply iter_pos_shr_1_nonneg, H0.
Qed.

Lemma round_nearest_even_nonneg m l : 0 <= m -> 0 <= round_nearest_even m l.
Proof.
  intros H. unfold round_nearest_even.
  destruct l as [ | [ | | ]]; try exact H; try lia.
  destruct (Z.even m); lia.
Qed.

Lemma binary_round_aux_not_nan sx mx ex lx :
  0 <= mx ->
  Float32.is_nan (binary_round_aux Float32.prec Float32.emax sx mx ex lx) = false.
Proof.
  intros H. unfold binary_round_aux.
  pose proof (shr_fexp_nonneg mx ex lx H) as H1.
  destruct (shr_fexp Float32.prec Float32.emax mx ex lx) as [mrs' e']. cbn [fst] in H1.
  pose proof (shr_fexp_nonneg
                (round_nearest_even (shr_m mrs') (loc_of_shr_record mrs')) e' loc_Exact
                (round_nearest_even_nonneg _ _ H1)) as H2.
  destruct (shr_fexp Float32.prec Float32.emax
              (round_nearest_even (shr_m mrs') (loc_of_shr_record mrs')) e' loc_Exact)
    as [mrs'' e'']. cbn [fst] in H2.
  destruct (shr_m mrs'') as [ | p | p]; [reflexivity | | lia].
  destruct (e'' <=? Float32.emax - Float32.prec); reflexivity.
Qed.

(** An integer converts to a number, never to a NaN. *)
Lemma of_Z_not_nan n : Float32.is_nan (Float32.of_Z n) = false.
Proof.
  unfold Float32.of_Z, binary_normalize, binary_round.
  destruct n as [ | p | p]; [reflexivity | | ];
    destruct (shl_align _ _ _) as [mz ez];
    apply binary_round_aux_not_nan; lia.
Qed.


(** * Steady readings *)

Section SteadyFacts.

Variable get_value : Z -> option pad_temperature.
Variable set_value : switch_request -> bool.

Local Abbreviation tick := (on_second_tick get_value set_value).
Local Abbreviation run := (seconds get_value set_value).
Local Abbreviation sample := (get_highest_temperature get_value).

Lemma same_settings_sample a b :
  same_settings a b -> result_of sample a = result_of sample b.
Proof.
  intros (Hc & _). unfold result_of. rewrite !get_highest_temperature_run, Hc.
  reflexivity.
Qed.

Lemma same_settings_dispatch_value a b temp :
  same_settings a b -> dispatch_value a temp = dispatch_value b temp.
Proof.
  intros (_ & H1 & H2 & H3 & H4 & _).
  unfold dispatch_value, branch_of, fading_value. rewrite H1, H2, H3, H4.
  reflexivity.
Qed.

Lemma filter_is_write_reads l : filter is_write (map get_temperature l) = [].
Proof. induction l as [ | c l IH]; [reflexivity | exact IH]. Qed.

Lemma filter_within_writes (p : event -> bool) trace :
  (forall e, p e = true -> is_write e = true) ->
  filter p (filter is_write trace) = filter p trace.
Proof.
  intros Hp. induction trace as [ | e trace IH]; [reflexivity | ].
  cbn [filter]. destruct (is_write e) eqn:Ew; cbn [filter].
  - rewrite IH. reflexivity.
  - rewrite IH. destruct (p e) eqn:Ep; [ | reflexivity].
    rewrite (Hp e Ep) in Ew. discriminate.
Qed.

Variable this : TemperatureFader.

Local Abbreviation steady_value := (dispatch_value this (result_of sample this)).

(** What one tick does while the readings stay the same. *)
Lemma steady_tick cur :
  same_settings cur this ->
  same_settings (object_after tick cur) this
  /\ ((filter is_write (trace_of tick cur) = []
       /\ temperaturefader_pwm_value (object_after tick cur)
          = temperaturefader_pwm_value cur)
      \/ (Float32.eqb (temperaturefader_pwm_value cur) steady_value = false
          /\ filter is_write (trace_of tick cur)
             = filter is_write (dispatch_trace set_value steady_value cur)
          /\ temperaturefader_pwm_value (object_after tick cur) = steady_value)).
Proof.
  intros Hs.
  split; [apply (same_settings_trans _ cur); [apply on_second_tick_same_settings
                                             | exact Hs] | ].
  destruct (Z_le_gt_dec (countdown_timer cur) 1) as [Ht | Ht].
  - pose proof (on_second_tick_acting get_value set_value cur Ht) as Hact.
    cbv zeta in Hact.
    rewrite (same_settings_sample cur this Hs) in Hact.
    rewrite (same_settings_dispatch_value cur this _ Hs) in Hact.
    assert (Eo : object_after tick cur = snd (fst (tick cur))) by reflexivity.
    assert (Et : trace_of tick cur = snd (tick cur)) by reflexivity.
    rewrite Hact in Eo, Et. cbn [fst snd] in Eo, Et. rewrite Eo, Et.
    rewrite filter_app, filter_is_write_reads. cbn [app].
    cbn [temperaturefader_pwm_value set_countdown_timer].
    unfold object_after, trace_of.
    destruct (Float32.eqb (temperaturefader_pwm_value cur) steady_value) eqn:E.
    + left. rewrite (set_pwm_suppressed _ _ _ E). split; reflexivity.
    + right. rewrite (set_pwm_dispatched _ _ _ E).
      split; [reflexivity | split; reflexivity].
  - left. unfold object_after, trace_of.
    rewrite (on_second_tick_waiting get_value set_value cur) by lia.
    split; reflexivity.
Qed.

Lemma steady_run_silent n : forall cur,
  same_settings cur this ->
  Float32.eqb (temperaturefader_pwm_value cur) steady_value = true ->
  filter is_write (trace_of (run n) cur) = [].
Proof.
  induction n as [ | n IH]; intros cur Hs He; [reflexivity | ].
  destruct (seconds_first get_value set_value n cur) as [_ Ht].
  rewrite Ht, filter_app.
  destruct (steady_tick cur Hs) as [Hs' [[Hw Hv] | (Hne & _)]].
  - rewrite Hw. cbn [app]. apply IH; [exact Hs' | rewrite Hv; exact He].
  - congruence.
Qed.

Lemma steady_run_writes n : forall cur,
  same_settings cur this ->
  filter is_write (trace_of (run n) cur) = []
  \/ exists at_dispatch,
       filter is_write (trace_of (run n) cur)
       = filter is_write (dispatch_trace set_value steady_value at_dispatch).
Proof.
  induction n as [ | n IH]; intros cur Hs; [left; reflexivity | ].
  destruct (seconds_first get_value set_value n cur) as [_ Ht].
  rewrite Ht, filter_app.
  destruct (steady_tick cur Hs) as [Hs' [[Hw Hv] | (Hne & Hw & Hv)]].
  - rewrite Hw. cbn [app]. apply IH, Hs'.
  - right. exists cur. rewrite Hw, steady_run_silent.
    + apply app_nil_r.
    + exact Hs'.
    + rewrite Hv. apply Float32Facts.eqb_refl.
      unfold dispatch_value, fading_value.
      destruct (branch_of this (result_of sample this)); apply of_Z_not_nan.
Qed.

End SteadyFacts.

(** X16.  While the readings of the temperature controllers do not
    change, a controller writes on its switch for one dispatch at most,
    however many seconds pass: at most one state write and at most one
    value write over the whole run, and none at all if its last value
    already equals the value that goes with the readings. *)
Theorem steady_readings_are_written_once :
  forall (get_value : Z -> option pad_temperature)
         (set_value : switch_request -> bool) (n : nat) (this : TemperatureFader),
    let trace := trace_of (seconds get_value set_value n) this in
    let value :=
      dispatch_value this (result_of (get_highest_temperature get_value) this) in
    (List.length (filter is_state_write trace) <= 1)%nat
    /\ (List.length (filter is_value_write trace) <= 1)%nat
    /\ (forall v, In v (written_values trace) -> v = value)
    /\ (Float32.eqb (temperaturefader_pwm_value this) value = true ->
        filter is_write trace = []).
Proof.
  intros get_value set_value n this trace value.
  assert (Hstate : forall e, is_state_write e = true -> is_write e = true).
  { intros [c | [cs b | cs v] | msg]; cbn; congruence. }
  assert (Hvalue : forall e, is_value_write e = true -> is_write e = true).
  { intros [c | [cs b | cs v] | msg]; cbn; congruence. }
  assert (Hwv : forall t, written_values (filter is_write t) = written_values t).
  { induction t as [ | [c | [cs b | cs v] | msg] t IH]; cbn; rewrite ?IH; reflexivity. }
  pose proof (steady_run_writes get_value set_value this n this
                (same_settings_refl this)) as Hrun.
  fold trace in Hrun. fold value in Hrun.
  split; [ | split; [ | split]].
  - rewrite <- (filter_within_writes is_state_write trace Hstate).
    destruct Hrun as [-> | [d ->]]; [cbn; lia | ].
    rewrite (filter_within_writes is_state_write _ Hstate).
    apply dispatch_trace_writes.
  - rewrite <- (filter_within_writes is_value_write trace Hvalue).
    destruct Hrun as [-> | [d ->]]; [cbn; lia | ].
    rewrite (filter_within_writes is_value_write _ Hvalue).
    destruct (dispatch_trace_writes set_value value d) as [_ H]. rewrite H. lia.
  - intros v. rewrite <- Hwv.
    destruct Hrun as [-> | [d ->]]; [intros [] | ].
    rewrite Hwv. unfold dispatch_trace, write_once.
    destruct (Bool.eqb _ _); cbn;
      repeat match goal with
             | |- context [ set_value ?r ] => destruct (set_value r); cbn
             end;
      intros H;
      repeat match goal with
             | H : _ \/ _ |- _ => destruct H
             | H : False |- _ => destruct H
             end; congruence.
  - apply steady_run_silent. apply same_settings_refl.
Qed.

Lemma steady_readings_are_written_once_witness :
  let this := Example.load Example.minimal in
  let cold := Example.hotend_at (Float32.of_Z 20) in
  Float32.eqb (temperaturefader_pwm_value this)
    (dispatch_value this (result_of (get_highest_temperature cold) this)) = true
  /\ filter is_write (trace_of (seconds cold Example.accepting 100) this) = [].
Proof.
  cbv zeta.
  assert (H : Float32.eqb
                (temperaturefader_pwm_value (Example.load Example.minimal))
                (dispatch_value (Example.load Example.minimal)
                   (result_of (get_highest_temperature
                                 (Example.hotend_at (Float32.of_Z 20)))
                      (Example.load Example.minimal))) = true)
    by (vm_compute; reflexivity).
  split; [exact H | ].
  exact (proj2 (proj2 (proj2 (steady_readings_are_written_once
                                (Example.hotend_at (Float32.of_Z 20))
                                Example.accepting 100
                                (Example.load Example.minimal)))) H).
Defined.
